(** * nodejs-iam-client: a shallow embedding of [IAMClient] and the route guard

    The development follows [src/IAMClient.ts] (the revision whose
    [handleError] takes [preferDetailedMessage]), the context provider
    [react/IAMContext.tsx] and the [ProtectedRoute] component.

    Conventions of the embedding:
    - a JavaScript [string | null | undefined] is an [option string]; its
      truthiness ([if (x)], [x || y]) is [truthy];
    - an insertion-ordered [Set<string>] is the list of its members in
      insertion order;
    - the [Map] behind the verification cache is a [gmap string _];
    - every [async] method performs at most one HTTP request, so the
      transport's answer is an argument of the method ([HttpResult]) and
      the request itself is an [Event] appended to the client's log;
    - [Date.now()] readings are arguments of type [Z] (milliseconds);
    - the configured callbacks [onTokenRefresh] and [onAuthError] are
      external observers: calling one appends an event to the log. *)

From Stdlib Require Import ZArith String List Bool Lia.
From stdpp Require Import gmap strings list pretty.

Open Scope string_scope.
Open Scope list_scope.

(** ** JavaScript truthiness of an optional string *)

Definition truthy (o : option string) : bool :=
  match o with
  | Some s => negb (String.eqb s "")
  | None => false
  end.

(** Truthiness of an optional object or array: present means truthy. *)
Definition present {A : Type} (o : option A) : bool :=
  match o with
  | Some _ => true
  | None => false
  end.

(** [a || b] on optional strings. *)
Definition or_else (a b : option string) : option string :=
  if truthy a then a else b.

(** ** types.ts *)

(** A role's permission as the code meets it at run time: a bare string, or
    a [Permission] object with an id and a name. *)
Inductive PermissionEntry :=
  | PermString (s : string)
  | PermObject (id : string) (name : string).

Record Role := mkRole {
  role_id : string;
  role_name : string;
  role_permissions : option (list PermissionEntry)
}.

Record User := mkUser {
  user_id : string;
  user_name : string;
  user_email : string;
  user_roles : option (list Role)
}.

Record LoginResponse := mkLoginResponse {
  lr_access_token : string;
  lr_token_type : string;
  lr_expires_in : Z;
  lr_user : option User;
  lr_permissions : option (list string)
}.

Record TokenVerificationResponse := mkTokenVerificationResponse {
  tv_user : option User;
  tv_permissions : option (list string);
  tv_roles : list string
}.

Record RefreshTokenResponse := mkRefreshTokenResponse {
  rt_access_token : option string;
  rt_token_type : string;
  rt_expires_in : Z
}.

Record LoginCredentials := mkLoginCredentials {
  cred_email : string;
  cred_password : string
}.

(** ** The permission reconciler *)

Module Reconciler.

(** [Set.prototype.add]: a member already present keeps its place. *)
Definition Set_add (x : string) (s : list string) : list string :=
  if decide (x ∈ s) then s else s ++ [x].

(** [new Set(iterable)] *)
Definition Set_new (l : list string) : list string :=
  fold_left (fun s x => Set_add x s) l [].

(** [typeof permission === 'string' ? permission : permission.name] *)
Definition permName (p : PermissionEntry) : string :=
  match p with
  | PermString s => s
  | PermObject _ n => n
  end.

(** The body of [for (const role of roles)]. *)
Definition add_role (permissions : list string) (role : Role) : list string :=
  match role_permissions role with
  | Some ps => fold_left (fun s p => Set_add (permName p) s) ps permissions
  | None => permissions
  end.

(** The statements shared by [extractPermissionsFromLoginResponse] and
    [enrichPermissionsFromRoles]: seed, loop over the roles, [Array.from]. *)
Definition collect (flat : option (list string)) (user : option User) : list string :=
  let permissions := Set_new (default [] flat) in
  match user with
  | Some u =>
      match user_roles u with
      | Some roles => fold_left add_role roles permissions
      | None => permissions
      end
  | None => permissions
  end.

Definition extractPermissionsFromLoginResponse (response : LoginResponse) : list string :=
  collect (lr_permissions response) (lr_user response).

Definition enrichPermissionsFromRoles (data : TokenVerificationResponse)
    : TokenVerificationResponse :=
  {| tv_user := tv_user data;
     tv_permissions := Some (collect (tv_permissions data) (tv_user data));
     tv_roles := tv_roles data |}.

(** What the roles contribute, in iteration order. *)
Definition role_names (user : option User) : list string :=
  match user with
  | Some u =>
      match user_roles u with
      | Some roles =>
          concat (map (fun r => map permName (default [] (role_permissions r))) roles)
      | None => []
      end
  | None => []
  end.

(** The members of a list, each kept at its first occurrence. *)
Fixpoint first_occurrences (l : list string) : list string :=
  match l with
  | [] => []
  | x :: l' => x :: filter (fun y => y ≠ x) (first_occurrences l')
  end.

(** The reconciliation as the specification words it: an insertion-ordered
    set that skips a name already present, seeded with the flat list and
    then fed the names of the roles. *)
Fixpoint spec_insert_all (names set : list string) : list string :=
  match names with
  | [] => set
  | n :: rest =>
      spec_insert_all rest (if existsb (String.eqb n) set then set else set ++ [n])
  end.

Definition spec_reconcile (flat : option (list string)) (user : option User) : list string :=
  spec_insert_all (role_names user) (spec_insert_all (default [] flat) []).

End Reconciler.

(** ** The error normalizer *)

Module Errors.

(** The value of one field in a body's [errors] object: an array of
    messages, or a single message that is not wrapped in an array. *)
Inductive FieldMessages :=
  | MsgArray (messages : list string)
  | MsgScalar (message : string).

(** A structured response body.  [ed_errors] lists the entries of the
    [errors] object in the order [Object.entries] enumerates them; an
    object is truthy even when it has no entries. *)
Record ErrorData := mkErrorData {
  ed_errors : option (list (string * FieldMessages));
  ed_message : option string
}.

(** [resp_data = None] stands for an absent or falsy body. *)
Record AxiosResponse := mkAxiosResponse {
  resp_status : Z;
  resp_data : option ErrorData
}.

Record AxiosError := mkAxiosError {
  ax_message : string;
  ax_response : option AxiosResponse
}.

(** The [Error] built by [handleError], with the two properties attached
    to it. *)
Record JsError := mkJsError {
  err_message : string;
  err_data : option ErrorData;
  err_statusCode : option Z
}.

(** What a [catch] clause can receive. *)
Inductive Thrown :=
  | ThrownAxios (e : AxiosError)
  | ThrownError (e : JsError).

Definition plainError (message : string) : JsError :=
  {| err_message := message; err_data := None; err_statusCode := None |}.

(** [axiosError.response?.data] *)
Definition response_data (e : AxiosError) : option ErrorData :=
  match ax_response e with
  | Some r => resp_data r
  | None => None
  end.

(** [axiosError.response?.status] *)
Definition response_status (e : AxiosError) : option Z :=
  match ax_response e with
  | Some r => Some (resp_status r)
  | None => None
  end.

(** [Object.values(errorData.errors)[0]] *)
Definition firstFieldErrors (errors : list (string * FieldMessages)) : option FieldMessages :=
  head (map snd errors).

(** [Array.isArray(messages) ? messages : [messages]] *)
Definition msgs (messages : FieldMessages) : list string :=
  match messages with
  | MsgArray l => l
  | MsgScalar m => [m]
  end.

(** [Object.entries(errors).map(([field, messages]) => msgs.join(', ')).join('; ')] *)
Definition fieldErrors (errors : list (string * FieldMessages)) : string :=
  String.concat "; "
    (map (fun entry : string * FieldMessages =>
            let '(field, messages) := entry in String.concat ", " (msgs messages))
         errors).

(** The first [if / else if] of [handleError]: the text after the
    detailed-message step or the top-level-message step. *)
Definition firstMessage (errorData : ErrorData) (message : string)
    (preferDetailedMessage : bool) : string :=
  if preferDetailedMessage && present (ed_errors errorData) then
    match firstFieldErrors (default [] (ed_errors errorData)) with
    | Some (MsgArray (m :: _)) => m
    | _ => message
    end
  else if truthy (ed_message errorData) then default message (ed_message errorData)
  else message.

(** The second [if]: field errors when the text is still the fallback. *)
Definition finalMessage (errorData : ErrorData) (message : string)
    (errorMessage : string) : string :=
  match ed_errors errorData with
  | Some errors =>
      if String.eqb errorMessage message then
        let fieldErrors := fieldErrors errors in
        if negb (String.eqb fieldErrors "") then fieldErrors else errorMessage
      else errorMessage
  | None => errorMessage
  end.

Definition handleError (error : Thrown) (message : string)
    (preferDetailedMessage : bool) : JsError :=
  match error with
  | ThrownAxios axiosError =>
      match response_data axiosError with
      | Some errorData =>
          let errorMessage := firstMessage errorData message preferDetailedMessage in
          let errorMessage := finalMessage errorData message errorMessage in
          {| err_message := errorMessage;
             err_data := Some errorData;
             err_statusCode := response_status axiosError |}
      | None => plainError (message +:+ ": " +:+ ax_message axiosError)
      end
  | ThrownError e =>
      plainError (message +:+ ": " +:+
                  (if String.eqb (err_message e) "" then "Unknown error" else err_message e))
  end.

(** The transport error that carries the structured body [d]. *)
Definition with_body (axmsg : string) (status : Z) (d : ErrorData) : Thrown :=
  ThrownAxios {| ax_message := axmsg;
                 ax_response := Some {| resp_status := status; resp_data := Some d |} |}.

(** *** The steps of the normalizer as the specification words them *)

(** "The first field's first message" of a field-error map. *)
Definition spec_first_field_first_message (errors : list (string * FieldMessages))
    : option string :=
  match errors with
  | (_, messages) :: _ => head (msgs messages)
  | [] => None
  end.

(** Step 3: the text of the detailed-message step, when it produces one. *)
Definition spec_detailed_text (d : ErrorData) (preferDetailedMessage : bool)
    : option string :=
  if preferDetailedMessage then
    match ed_errors d with
    | Some errors => spec_first_field_first_message errors
    | None => None
    end
  else None.

(** Step 4: the text of the top-level-message step, when it produces one. *)
Definition spec_top_level_text (d : ErrorData) : option string :=
  if truthy (ed_message d) then ed_message d else None.

(** Step 5: "field: joined-messages" across all fields, semicolon-separated. *)
Definition spec_field_text (errors : list (string * FieldMessages)) : string :=
  String.concat "; "
    (map (fun entry : string * FieldMessages =>
            fst entry +:+ ": " +:+ String.concat ", " (msgs (snd entry)))
         errors).

(** C3 as the specification states it, at one transport error with body
    [d] and fallback [message]: with the flag set, a body with a
    field-error map gives the first field's first message, and a body
    without one gives its top-level message. *)
Definition C3_as_stated (message axmsg : string) (status : Z) (d : ErrorData) : Prop :=
  let text := err_message (handleError (with_body axmsg status d) message true) in
  match ed_errors d with
  | Some errors => spec_first_field_first_message errors = Some text
  | None => truthy (ed_message d) = true -> ed_message d = Some text
  end.

(** C4 as the specification states it: when neither step 3 nor step 4
    produced a text and the map is not empty, the text is that of step 5
    with the field names. *)
Definition C4_as_stated (message axmsg : string) (status : Z) (d : ErrorData)
    (preferDetailedMessage : bool) : Prop :=
  forall errors,
    ed_errors d = Some errors -> errors <> [] ->
    spec_detailed_text d preferDetailedMessage = None ->
    spec_top_level_text d = None ->
    err_message (handleError (with_body axmsg status d) message preferDetailedMessage)
    = spec_field_text errors.

End Errors.

(** ** Response bodies as they arrive *)

(** The records of [types.ts] describe what the service promises.  What
    the reconciler of [login] and [loginWithPhone] iterates is the parsed
    JSON body, which can fall short of them where a [for ... of] or a
    property read raises a [TypeError]. *)
Module Body.
Import Reconciler Errors.

(** A field the code iterates: absent or falsy; an array; or a truthy
    value that is not iterable (a number, a plain object), with the message
    of the [TypeError] the engine raises when it is iterated. *)
Inductive Field (A : Type) :=
  | Absent
  | Items (items : list A)
  | NotIterable (typeError : string).
Arguments Absent {A}.
Arguments Items {A} items.
Arguments NotIterable {A} typeError.

(** An element the code reads a property of: a value, or [null] or
    [undefined], with the message of the [TypeError] the read raises. *)
Inductive Cell (A : Type) :=
  | Value (a : A)
  | Nullish (typeError : string).
Arguments Value {A} a.
Arguments Nullish {A} typeError.

Record RawRole := mkRawRole {
  rr_id : string;
  rr_name : string;
  rr_permissions : Field (Cell PermissionEntry)
}.

Record RawUser := mkRawUser {
  ru_id : string;
  ru_name : string;
  ru_email : string;
  ru_roles : Field (Cell RawRole)
}.

Record LoginBody := mkLoginBody {
  lb_access_token : string;
  lb_token_type : string;
  lb_expires_in : Z;
  lb_user : option RawUser;
  lb_permissions : Field string
}.

(** A computation that returns or throws. *)
Inductive Try (A : Type) :=
  | Returns (a : A)
  | Throws (e : Thrown).
Arguments Returns {A} a.
Arguments Throws {A} e.

(** A [TypeError] is an [Error] that does not come from the transport. *)
Definition typeError (message : string) : Thrown :=
  ThrownError (plainError message).

(** [for (const permission of role.permissions)] with its body. *)
Fixpoint add_permissions (permissions : list (Cell PermissionEntry))
    (set : list string) : Try (list string) :=
  match permissions with
  | [] => Returns set
  | Value permission :: rest =>
      add_permissions rest (Set_add (permName permission) set)
  | Nullish message :: _ => Throws (typeError message)
  end.

(** The body of [for (const role of response.user.roles)]. *)
Definition add_role (set : list string) (role : Cell RawRole) : Try (list string) :=
  match role with
  | Nullish message => Throws (typeError message)
  | Value r =>
      match rr_permissions r with
      | Absent => Returns set
      | Items permissions => add_permissions permissions set
      | NotIterable message => Throws (typeError message)
      end
  end.

Fixpoint add_roles (roles : list (Cell RawRole)) (set : list string)
    : Try (list string) :=
  match roles with
  | [] => Returns set
  | role :: rest =>
      match add_role set role with
      | Returns set' => add_roles rest set'
      | Throws e => Throws e
      end
  end.

(** [extractPermissionsFromLoginResponse] on the body as it arrives. *)
Definition extractPermissionsFromLoginResponse (response : LoginBody)
    : Try (list string) :=
  match lb_permissions response with
  | NotIterable message => Throws (typeError message)
  | flat =>
      let permissions :=
        Set_new (match flat with Items l => l | _ => [] end) in
      match lb_user response with
      | Some user =>
          match ru_roles user with
          | Absent => Returns permissions
          | Items roles => add_roles roles permissions
          | NotIterable message => Throws (typeError message)
          end
      | None => Returns permissions
      end
  end.

(** A body that has the declared shape. *)
Definition ofRole (r : Role) : RawRole :=
  {| rr_id := role_id r; rr_name := role_name r;
     rr_permissions :=
       match role_permissions r with
       | Some permissions => Items (map Value permissions)
       | None => Absent
       end |}.

Definition ofUser (u : User) : RawUser :=
  {| ru_id := user_id u; ru_name := user_name u; ru_email := user_email u;
     ru_roles :=
       match user_roles u with
       | Some roles => Items (map (fun r => Value (ofRole r)) roles)
       | None => Absent
       end |}.

Definition ofLoginResponse (r : LoginResponse) : LoginBody :=
  {| lb_access_token := lr_access_token r;
     lb_token_type := lr_token_type r;
     lb_expires_in := lr_expires_in r;
     lb_user := option_map ofUser (lr_user r);
     lb_permissions :=
       match lr_permissions r with
       | Some permissions => Items permissions
       | None => Absent
       end |}.

End Body.

(** ** The IAM session client *)

Module Client.
Import Reconciler Errors.

Record CacheEntry := mkCacheEntry {
  ce_data : TokenVerificationResponse;
  ce_timestamp : Z
}.

(** Which of the optional callbacks the configuration carries. *)
Record IAMConfig := mkIAMConfig {
  onTokenRefresh : bool;
  onAuthError : bool
}.

(** What the client does to the outside world. [Request] records the
    [Authorization] header the request leaves with. *)
Inductive Event :=
  | Request (method path : string) (authorization : option string)
  | ConsoleError (label : string)
  | OnTokenRefresh (token : string)
  | OnAuthError.

Record IAMClient := mkIAMClient {
  config : IAMConfig;
  token : option string;
  tokenCache : gmap string CacheEntry;
  log : list Event
}.

Definition cacheDuration : Z := 60000.

(** The answer of the transport to one request. *)
Inductive HttpResult (A : Type) :=
  | Resolved (data : A)
  | Rejected (error : Thrown).
Arguments Resolved {A} data.
Arguments Rejected {A} error.

(** An [async] method: it resolves or rejects, and leaves a client. *)
Inductive Outcome (A : Type) :=
  | Resolves (a : A)
  | Rejects (e : Thrown).
Arguments Resolves {A} a.
Arguments Rejects {A} e.

Definition Async (A : Type) : Type := IAMClient -> Outcome A * IAMClient.

Definition ret {A} (a : A) : Async A := fun c => (Resolves a, c).

Definition throw {A} (e : Thrown) : Async A := fun c => (Rejects e, c).

Definition bind {A B} (m : Async A) (k : A -> Async B) : Async B :=
  fun c =>
    match m c with
    | (Resolves a, c') => k a c'
    | (Rejects e, c') => (Rejects e, c')
    end.

Definition try_catch {A} (body : Async A) (handler : Thrown -> Async A) : Async A :=
  fun c =>
    match body c with
    | (Resolves a, c') => (Resolves a, c')
    | (Rejects e, c') => handler e c'
    end.

Notation "'let*' x ':=' m 'in' k" := (bind m (fun x => k))
  (at level 10, x name, m at level 100, k at level 200).

Definition emit (ev : Event) : Async unit :=
  fun c => (Resolves tt,
            {| config := config c; token := token c;
               tokenCache := tokenCache c; log := log c ++ [ev] |}).

Definition with_token (t : option string) (c : IAMClient) : IAMClient :=
  {| config := config c; token := t; tokenCache := tokenCache c; log := log c |}.

Definition with_cache (m : gmap string CacheEntry) (c : IAMClient) : IAMClient :=
  {| config := config c; token := token c; tokenCache := m; log := log c |}.

Definition setToken (t : string) : Async unit :=
  fun c => (Resolves tt, with_token (Some t) c).

Definition getToken (c : IAMClient) : option string := token c.

Definition clearTokenCache : Async unit :=
  fun c => (Resolves tt, with_cache ∅ c).

Definition clearToken : Async unit :=
  let* _ := (fun c => (Resolves tt, with_token None c)) in
  clearTokenCache.

(** The request interceptor: the current token, when there is one, takes
    the place of the header the method passed. *)
Definition request_authorization (c : IAMClient) (headers : option string) : option string :=
  if truthy (token c) then token c else headers.

(** [error.response?.status === 401] *)
Definition is_401 (e : Thrown) : bool :=
  match e with
  | ThrownAxios a =>
      match response_status a with
      | Some st => Z.eqb st 401
      | None => false
      end
  | ThrownError _ => false
  end.

(** One call of [this.client.get / post]: the request goes out; on a
    rejection the response interceptor runs before the error reaches the
    method. *)
Definition http {A} (method path : string) (headers : option string)
    (net : HttpResult A) : Async A :=
  fun c =>
    let c1 := snd (emit (Request method path (request_authorization c headers)) c) in
    match net with
    | Resolved d => (Resolves d, c1)
    | Rejected e =>
        if is_401 e && onAuthError (config c1)
        then (Rejects e, snd (emit OnAuthError c1))
        else (Rejects e, c1)
    end.

(** [token ? { Authorization: `Bearer ${token}` } : {}] *)
Definition bearer (t : option string) : option string :=
  if truthy t then t else None.

(** [login] for an answer whose body has the declared [LoginResponse]
    shape; [Runtime.login] is the method on the body as it arrives, and
    this one is its restriction to such bodies. *)
Definition login (credentials : LoginCredentials) (net : HttpResult LoginResponse)
    : Async LoginResponse :=
  try_catch
    (let* response := http "POST" "/auth/login" None net in
     let* _ := setToken (lr_access_token response) in
     ret {| lr_access_token := lr_access_token response;
            lr_token_type := lr_token_type response;
            lr_expires_in := lr_expires_in response;
            lr_user := lr_user response;
            lr_permissions := Some (extractPermissionsFromLoginResponse response) |})
    (fun error => throw (ThrownError (handleError error "Login failed" false))).

Definition cacheKey (tokenToVerify : string) : string := "token_" +:+ tokenToVerify.

Definition cacheSet (key : string) (entry : CacheEntry) : Async unit :=
  fun c => (Resolves tt, with_cache (<[key := entry]> (tokenCache c)) c).

Definition cacheDelete (key : string) : Async unit :=
  fun c => (Resolves tt, with_cache (delete key (tokenCache c)) c).

(** [cached && Date.now() - cached.timestamp < this.cacheDuration], with
    the data it guards. *)
Definition cacheFresh (c : IAMClient) (key : string) (now : Z)
    : option TokenVerificationResponse :=
  match tokenCache c !! key with
  | Some cached =>
      if Z.ltb (now - ce_timestamp cached) cacheDuration
      then Some (ce_data cached) else None
  | None => None
  end.

(** [verifyToken]: [now1] is the clock at the cache check, [now2] the clock
    when the answer is stored. *)
Definition verifyToken (tok : option string) (now1 : Z)
    (net : HttpResult TokenVerificationResponse) (now2 : Z)
    : Async TokenVerificationResponse :=
  fun c =>
    let tokenToVerify := or_else tok (token c) in
    if negb (truthy tokenToVerify) then
      throw (ThrownError (plainError "No token provided")) c
    else
      let tokenToVerify := default "" tokenToVerify in
      let cacheKey := cacheKey tokenToVerify in
      match cacheFresh c cacheKey now1 with
      | Some data => ret data c
      | None =>
          try_catch
            (let* response := http "GET" "/auth/me" (Some tokenToVerify) net in
             let enrichedData := enrichPermissionsFromRoles response in
             let* _ := cacheSet cacheKey (mkCacheEntry enrichedData now2) in
             ret enrichedData)
            (fun error =>
               let* _ := cacheDelete cacheKey in
               throw (ThrownError (handleError error "Token verification failed" false)))
            c
      end.

Definition hasPermission (permission : string) (tok : option string)
    (net : HttpResult bool) : Async bool :=
  try_catch
    (let* has_permission := http "POST" "/auth/check-permission" (bearer tok) net in
     ret has_permission)
    (fun error => let* _ := emit (ConsoleError "Permission check failed:") in ret false).

Definition hasRole (role : string) (tok : option string)
    (net : HttpResult bool) : Async bool :=
  try_catch
    (let* has_role := http "POST" "/auth/check-role" (bearer tok) net in
     ret has_role)
    (fun error => let* _ := emit (ConsoleError "Role check failed:") in ret false).

Definition refreshToken (tok : option string) (net : HttpResult RefreshTokenResponse)
    : Async RefreshTokenResponse :=
  try_catch
    (let* response := http "POST" "/auth/refresh" (bearer tok) net in
     let* _ := (if truthy (rt_access_token response) then
             let* _ := setToken (default "" (rt_access_token response)) in
             (fun c =>
                if onTokenRefresh (config c)
                then emit (OnTokenRefresh (default "" (rt_access_token response))) c
                else ret tt c)
           else ret tt) in
     ret response)
    (fun error => throw (ThrownError (handleError error "Token refresh failed" false))).

Definition logout (tok : option string) (net : HttpResult unit) : Async unit :=
  try_catch
    (let* _ := http "POST" "/auth/logout" (bearer tok) net in
     clearToken)
    (fun error => let* _ := emit (ConsoleError "Logout failed:") in clearToken).

Definition logoutAll (tok : option string) (net : HttpResult unit) : Async unit :=
  try_catch
    (let* _ := http "POST" "/auth/logout-all" (bearer tok) net in
     clearToken)
    (fun error => throw (ThrownError (handleError error "Logout all failed" false))).

(** C6 as the specification states it: the error of a failed [login] is
    the one the normalizer builds with the field-detail preference set. *)
Definition C6_as_stated (credentials : LoginCredentials) (error : Thrown)
    (c : IAMClient) : Prop :=
  fst (login credentials (Rejected error) c)
  = Rejects (ThrownError (handleError error "Login failed" true)).

End Client.

(** ** [login] on the body as it arrives *)

Module Runtime.
Import Reconciler Errors Body Client.

Definition lift {A} (t : Try A) : Async A :=
  fun c =>
    match t with
    | Returns a => (Resolves a, c)
    | Throws e => (Rejects e, c)
    end.

(** [login], the body of the source's [try] statement by statement: the
    token is set before the permissions are extracted, and both are inside
    the [try]. *)
Definition login (credentials : LoginCredentials) (net : HttpResult LoginBody)
    : Async LoginBody :=
  try_catch
    (let* response := http "POST" "/auth/login" None net in
     let* _ := setToken (lb_access_token response) in
     let* permissions := lift (Body.extractPermissionsFromLoginResponse response) in
     ret {| lb_access_token := lb_access_token response;
            lb_token_type := lb_token_type response;
            lb_expires_in := lb_expires_in response;
            lb_user := lb_user response;
            lb_permissions := Items permissions |})
    (fun error => throw (ThrownError (handleError error "Login failed" false))).

(** The transport's answer and a method's outcome, seen as bodies. *)
Definition bodyOfResult (net : HttpResult LoginResponse) : HttpResult LoginBody :=
  match net with
  | Resolved r => Resolved (ofLoginResponse r)
  | Rejected e => Rejected e
  end.

Definition bodyOfOutcome (o : Outcome LoginResponse) : Outcome LoginBody :=
  match o with
  | Resolves r => Resolves (ofLoginResponse r)
  | Rejects e => Rejects e
  end.

(** C5 as the specification states it, for one answer of the transport:
    whenever [login] rejects, [getToken] returns what it returned before. *)
Definition C5_as_stated (credentials : LoginCredentials) (net : HttpResult LoginBody)
    (c : IAMClient) : Prop :=
  forall e c', login credentials net c = (Rejects e, c') -> getToken c' = getToken c.

End Runtime.

(** ** Sample values used to run the definitions *)

Module Examples.
Import Errors Client.

Definition editor : User :=
  mkUser "1" "Ama" "ama@example.com"
    (Some [mkRole "r1" "editor" (Some [PermString "b"; PermObject "7" "c"])]).

Definition me : TokenVerificationResponse :=
  mkTokenVerificationResponse (Some editor) (Some ["a"; "b"]) ["editor"].

Definition stored : TokenVerificationResponse :=
  mkTokenVerificationResponse (Some editor) (Some ["a"; "b"; "c"]) ["editor"].

(** A client whose current token is T1, verified and stored at time 1000. *)
Definition session : IAMClient :=
  {| config := mkIAMConfig true true;
     token := Some "T1";
     tokenCache := <[cacheKey "T1" := mkCacheEntry stored 1000]> ∅;
     log := [] |}.

(** A 422 answer with a field-error map and a top-level message. *)
Definition invalid : Thrown :=
  with_body "Request failed with status code 422" 422
    (mkErrorData (Some [("email", MsgArray ["The email field is required."])])
                 (Some "The given data was invalid.")).

(** A failure without any response (network down, timeout). *)
Definition offline : Thrown :=
  ThrownAxios (mkAxiosError "Network Error" None).

Definition credentials : LoginCredentials := mkLoginCredentials "a@b.com" "x".

(** A 200 answer with a new token whose user has a number where the array
    of roles should be. *)
Definition malformed : Body.LoginBody :=
  Body.mkLoginBody "T9" "Bearer" 3600
    (Some (Body.mkRawUser "1" "Ama" "ama@example.com"
             (Body.NotIterable "response.user.roles is not iterable")))
    Body.Absent.

End Examples.

(** ** The reactive binding and the route guard *)

Module Guard.
Import Errors Client.

(** The part of [IAMContextValue] the guard reads: the React state [user],
    [token] and [isLoading] of the provider. *)
Record IAMContextValue := mkIAMContextValue {
  user : option User;
  ctx_token : option string;
  isLoading : bool
}.

(** [isAuthenticated: !!user] *)
Definition isAuthenticated (ctx : IAMContextValue) : bool :=
  present (user ctx).

(** The provider's [hasPermission] and [hasRole]. *)
Definition hasPermission (ctx : IAMContextValue) (permission : string)
    (net : HttpResult bool) : Async bool :=
  if negb (truthy (ctx_token ctx)) then ret false
  else Client.hasPermission permission (ctx_token ctx) net.

Definition hasRole (ctx : IAMContextValue) (role : string)
    (net : HttpResult bool) : Async bool :=
  if negb (truthy (ctx_token ctx)) then ret false
  else Client.hasRole role (ctx_token ctx) net.

(** [checkAccess] of [ProtectedRoute]; every path calls [setHasAccess]
    once, and the value it passes is the result.  [netP] and [netR] are the
    transport's answers to a permission check and to a role check. *)
Definition checkAccess (ctx : IAMContextValue)
    (requiredPermission requiredRole : option string)
    (netP netR : HttpResult bool) : Async bool :=
  if negb (isAuthenticated ctx) then ret false
  else if truthy requiredPermission then
    let* permitted := hasPermission ctx (default "" requiredPermission) netP in
    ret permitted
  else if truthy requiredRole then
    let* hasRequiredRole := hasRole ctx (default "" requiredRole) netR in
    ret hasRequiredRole
  else ret true.

Inductive Rendered :=
  | Fallback
  | Unauthorized (redirected : option string)
  | Children.

(** The render body after the effect: [hasAccess] is the component state,
    [None] for [null]; [window] tells whether [window] is defined. *)
Definition render (ctx : IAMContextValue) (hasAccess : option bool)
    (window : bool) (redirectTo : option string) : Rendered :=
  if isLoading ctx || negb (present hasAccess) then Fallback
  else if negb (default false hasAccess) then
    Unauthorized (if window && truthy redirectTo then redirectTo else None)
  else Children.

(** The requests to [path] among the events of a log. *)
Definition is_request_to (path : string) (ev : Event) : bool :=
  match ev with
  | Request _ p _ => String.eqb p path
  | _ => false
  end.

Definition requests_to (path : string) (events : list Event) : list Event :=
  List.filter (is_request_to path) events.

End Guard.

(** ** The remaining methods of the client *)

Module Methods.
Import Reconciler Errors Client.

Record PhoneLoginCredentials := mkPhoneLoginCredentials {
  plc_phone : string;
  plc_otp : string;
  plc_device_name : option string
}.

Record SendOtpRequest := mkSendOtpRequest {
  sor_phone : string;
  sor_purpose : option string
}.

Record SendOtpResponse := mkSendOtpResponse {
  so_message : string;
  so_expires_at : string;
  so_phone : string
}.

Record PhoneVerificationResponse := mkPhoneVerificationResponse {
  pv_message : string;
  pv_phone_verified : bool;
  pv_phone_verified_at : string
}.

Record PaginatedResponse (A : Type) := mkPaginatedResponse {
  pg_data : list A;
  pg_current_page : Z;
  pg_per_page : Z;
  pg_total : Z;
  pg_last_page : Z
}.

(** [getCurrentUser]: [verifyToken] without an argument. *)
Definition getCurrentUser (now1 : Z) (net : HttpResult TokenVerificationResponse)
    (now2 : Z) : Async TokenVerificationResponse :=
  verifyToken None now1 net now2.

(** [loginWithPhone] on the body as it arrives: as in [login], the token
    is set before the permissions are extracted, inside the [try]. *)
Definition loginWithPhone (credentials : PhoneLoginCredentials)
    (net : HttpResult Body.LoginBody) : Async Body.LoginBody :=
  try_catch
    (let* response := http "POST" "/auth/login-with-phone" None net in
     let* _ := setToken (Body.lb_access_token response) in
     let* permissions :=
       Runtime.lift (Body.extractPermissionsFromLoginResponse response) in
     ret {| Body.lb_access_token := Body.lb_access_token response;
            Body.lb_token_type := Body.lb_token_type response;
            Body.lb_expires_in := Body.lb_expires_in response;
            Body.lb_user := Body.lb_user response;
            Body.lb_permissions := Body.Items permissions |})
    (fun error => throw (ThrownError (handleError error "Phone login failed" true))).

Definition sendOtp (request : SendOtpRequest) (net : HttpResult SendOtpResponse)
    : Async SendOtpResponse :=
  try_catch
    (let* data := http "POST" "/auth/send-otp" None net in
     ret data)
    (fun error => throw (ThrownError (handleError error "Failed to send OTP" true))).

Definition verifyPhone (phone : string) (net : HttpResult SendOtpResponse)
    : Async SendOtpResponse :=
  try_catch
    (let* data := http "POST" "/auth/verify-phone" None net in
     ret data)
    (fun error =>
       throw (ThrownError
                (handleError error "Failed to send phone verification OTP" true))).

Definition confirmPhoneVerification (phone otp : string)
    (net : HttpResult PhoneVerificationResponse) : Async PhoneVerificationResponse :=
  try_catch
    (let* data := http "POST" "/auth/confirm-phone-verification" None net in
     ret data)
    (fun error =>
       throw (ThrownError
                (handleError error "Failed to confirm phone verification" true))).

(** [String.prototype.replace] with a string pattern: the first occurrence
    is replaced. *)
Definition replace_first (pattern replacement s : string) : string :=
  match String.index 0 pattern s with
  | Some i =>
      String.substring 0 i s +:+ replacement
      +:+ String.substring (i + String.length pattern)
            (String.length s - (i + String.length pattern)) s
  | None => s
  end.

(** [verifySession] calls [axios.get] itself, not [this.client]: neither
    interceptor runs, and the request has the headers the method writes
    (a cookie and [Accept], no [Authorization]).  [baseUrl] is
    [this.config.baseUrl]. *)
Definition verifySession (baseUrl sessionCookie : string)
    (net : HttpResult TokenVerificationResponse) : Async TokenVerificationResponse :=
  try_catch
    (let iamBaseUrl := replace_first "/api/v1" "" baseUrl in
     let* _ := emit (Request "GET" (iamBaseUrl +:+ "/api/v1/auth/me") None) in
     let* data := (fun c => match net with
                            | Resolved d => (Resolves d, c)
                            | Rejected e => (Rejects e, c)
                            end) in
     ret (enrichPermissionsFromRoles data))
    (fun error =>
       throw (ThrownError (handleError error "Session verification failed" false))).

(** User management.  An id of type [string | number] is the text the
    template literal makes of it. *)
Definition getUsers (net : HttpResult (PaginatedResponse User))
    : Async (PaginatedResponse User) :=
  try_catch
    (let* data := http "GET" "/users" None net in ret data)
    (fun error => throw (ThrownError (handleError error "Failed to fetch users" false))).

Definition getUser (userId : string) (net : HttpResult User) : Async User :=
  try_catch
    (let* data := http "GET" ("/users/" +:+ userId) None net in ret data)
    (fun error => throw (ThrownError (handleError error "Failed to fetch user" false))).

Definition createUser (net : HttpResult User) : Async User :=
  try_catch
    (let* data := http "POST" "/users" None net in ret data)
    (fun error => throw (ThrownError (handleError error "Failed to create user" false))).

Definition updateUser (userId : string) (net : HttpResult User) : Async User :=
  try_catch
    (let* data := http "PUT" ("/users/" +:+ userId) None net in ret data)
    (fun error => throw (ThrownError (handleError error "Failed to update user" false))).

Definition deleteUser (userId : string) (net : HttpResult unit) : Async unit :=
  try_catch
    (let* _ := http "DELETE" ("/users/" +:+ userId) None net in ret tt)
    (fun error => throw (ThrownError (handleError error "Failed to delete user" false))).

(** Department and position management. *)
Record Department := mkDepartment {
  dept_id : string;
  dept_name : string;
  dept_description : option string;
  dept_parent_department_id : option string;
  dept_manager_id : option string
}.

Record Position := mkPosition {
  pos_id : string;
  pos_department_id : string;
  pos_title : string;
  pos_description : option string;
  pos_level : option string;
  pos_salary_min : option Z;
  pos_salary_max : option Z;
  pos_reports_to_position_id : option string
}.

Definition getDepartments (net : HttpResult (PaginatedResponse Department))
    : Async (PaginatedResponse Department) :=
  try_catch
    (let* data := http "GET" "/departments" None net in ret data)
    (fun error =>
       throw (ThrownError (handleError error "Failed to fetch departments" false))).

Definition getDepartment (departmentId : string) (net : HttpResult Department)
    : Async Department :=
  try_catch
    (let* data := http "GET" ("/departments/" +:+ departmentId) None net in ret data)
    (fun error =>
       throw (ThrownError (handleError error "Failed to fetch department" false))).

Definition createDepartment (net : HttpResult Department) : Async Department :=
  try_catch
    (let* data := http "POST" "/departments" None net in ret data)
    (fun error =>
       throw (ThrownError (handleError error "Failed to create department" false))).

Definition updateDepartment (departmentId : string) (net : HttpResult Department)
    : Async Department :=
  try_catch
    (let* data := http "PUT" ("/departments/" +:+ departmentId) None net in ret data)
    (fun error =>
       throw (ThrownError (handleError error "Failed to update department" false))).

Definition deleteDepartment (departmentId : string) (net : HttpResult unit)
    : Async unit :=
  try_catch
    (let* _ := http "DELETE" ("/departments/" +:+ departmentId) None net in ret tt)
    (fun error =>
       throw (ThrownError (handleError error "Failed to delete department" false))).

Definition getUsersByDepartment (departmentId : string) (net : HttpResult (list User))
    : Async (list User) :=
  try_catch
    (let* data := http "GET" ("/departments/" +:+ departmentId +:+ "/users") None net in
     ret data)
    (fun error =>
       throw (ThrownError (handleError error "Failed to fetch department users" false))).

Definition searchDepartments (query : string) (net : HttpResult (list Department))
    : Async (list Department) :=
  try_catch
    (let* data := http "GET" "/departments/search" None net in ret data)
    (fun error =>
       throw (ThrownError (handleError error "Failed to search departments" false))).

Definition getPositions (net : HttpResult (PaginatedResponse Position))
    : Async (PaginatedResponse Position) :=
  try_catch
    (let* data := http "GET" "/positions" None net in ret data)
    (fun error =>
       throw (ThrownError (handleError error "Failed to fetch positions" false))).

Definition getPosition (positionId : string) (net : HttpResult Position)
    : Async Position :=
  try_catch
    (let* data := http "GET" ("/positions/" +:+ positionId) None net in ret data)
    (fun error =>
       throw (ThrownError (handleError error "Failed to fetch position" false))).

Definition getPositionsByDepartment (departmentId : string)
    (net : HttpResult (list Position)) : Async (list Position) :=
  try_catch
    (let* data :=
       http "GET" ("/departments/" +:+ departmentId +:+ "/positions") None net in
     ret data)
    (fun error =>
       throw (ThrownError
                (handleError error "Failed to fetch department positions" false))).

Definition createPosition (net : HttpResult Position) : Async Position :=
  try_catch
    (let* data := http "POST" "/positions" None net in ret data)
    (fun error =>
       throw (ThrownError (handleError error "Failed to create position" false))).

Definition updatePosition (positionId : string) (net : HttpResult Position)
    : Async Position :=
  try_catch
    (let* data := http "PUT" ("/positions/" +:+ positionId) None net in ret data)
    (fun error =>
       throw (ThrownError (handleError error "Failed to update position" false))).

Definition deletePosition (positionId : string) (net : HttpResult unit) : Async unit :=
  try_catch
    (let* _ := http "DELETE" ("/positions/" +:+ positionId) None net in ret tt)
    (fun error =>
       throw (ThrownError (handleError error "Failed to delete position" false))).

Definition getUsersByPosition (positionId : string) (net : HttpResult (list User))
    : Async (list User) :=
  try_catch
    (let* data := http "GET" ("/positions/" +:+ positionId +:+ "/users") None net in
     ret data)
    (fun error =>
       throw (ThrownError (handleError error "Failed to fetch position users" false))).

Definition searchPositions (query : string) (net : HttpResult (list Position))
    : Async (list Position) :=
  try_catch
    (let* data := http "GET" "/positions/search" None net in ret data)
    (fun error =>
       throw (ThrownError (handleError error "Failed to search positions" false))).

(** A method that only forwards: it resolves with the transport's data,
    rejects with the normalized error for [fallback], and leaves the
    current token and the cache as they were. *)
Definition pass_through {A} (method : HttpResult A -> Async A) (fallback : string)
    (preferDetailedMessage : bool) : Prop :=
  forall (net : HttpResult A) (c : IAMClient),
    token (snd (method net c)) = token c
    /\ tokenCache (snd (method net c)) = tokenCache c
    /\ fst (method net c)
       = match net with
         | Resolved d => Resolves d
         | Rejected e => Rejects (ThrownError (handleError e fallback preferDetailedMessage))
         end.

End Methods.

(** ** The context provider *)

Module Provider.
Import Errors Client.

(** The React state of [IAMProvider] and the item it keeps in
    [localStorage] under [tokenStorageKey] ([None]: no item). *)
Record ProviderState := mkProviderState {
  p_user : option User;
  p_token : option string;
  p_isLoading : bool;
  p_storage : option string
}.

Definition setUser (u : option User) (s : ProviderState) : ProviderState :=
  {| p_user := u; p_token := p_token s;
     p_isLoading := p_isLoading s; p_storage := p_storage s |}.

Definition setTokenState (t : option string) (s : ProviderState) : ProviderState :=
  {| p_user := p_user s; p_token := t;
     p_isLoading := p_isLoading s; p_storage := p_storage s |}.

Definition setIsLoading (b : bool) (s : ProviderState) : ProviderState :=
  {| p_user := p_user s; p_token := p_token s;
     p_isLoading := b; p_storage := p_storage s |}.

Definition setStorage (v : option string) (s : ProviderState) : ProviderState :=
  {| p_user := p_user s; p_token := p_token s;
     p_isLoading := p_isLoading s; p_storage := v |}.

(** A provider function: its outcome, the provider state and the client
    it leaves. *)
Definition Effect (A : Type) : Type :=
  ProviderState -> IAMClient -> Outcome A * ProviderState * IAMClient.

Definition clearAuth (s : ProviderState) (c : IAMClient) : ProviderState * IAMClient :=
  (setStorage None (setTokenState None (setUser None s)), snd (clearToken c)).

(** [verifyAndLoadUser] *)
Definition verifyAndLoadUser (authToken : string) (now1 : Z)
    (net : HttpResult TokenVerificationResponse) (now2 : Z) : Effect unit :=
  fun s c =>
    match verifyToken (Some authToken) now1 net now2 c with
    | (Resolves response, c') =>
        (Resolves tt, setIsLoading false (setUser (tv_user response) s), c')
    | (Rejects error, c') =>
        let c' := snd (emit (ConsoleError "Token verification failed:") c') in
        let '(s', c'') := clearAuth s c' in
        (Resolves tt, setIsLoading false s', c'')
    end.

(** The effect run on mount, with the verification it starts run to its
    end. *)
Definition mount (now1 : Z) (net : HttpResult TokenVerificationResponse)
    (now2 : Z) : Effect unit :=
  fun s c =>
    let storedToken := p_storage s in
    if truthy storedToken then
      let c := snd (setToken (default "" storedToken) c) in
      let s := setTokenState storedToken s in
      verifyAndLoadUser (default "" storedToken) now1 net now2 s c
    else (Resolves tt, setIsLoading false s, c).

Definition login (credentials : LoginCredentials) (net : HttpResult LoginResponse)
    : Effect unit :=
  fun s c =>
    let s := setIsLoading true s in
    match Client.login credentials net c with
    | (Resolves response, c') =>
        let newToken := lr_access_token response in
        let s := setTokenState (Some newToken) s in
        let s := setUser (lr_user response) s in
        let s := setStorage (Some newToken) s in
        (Resolves tt, setIsLoading false s, c')
    | (Rejects error, c') =>
        let '(s', c'') := clearAuth s c' in
        (Rejects error, setIsLoading false s', c'')
    end.

Definition logout (net : HttpResult unit) : Effect unit :=
  fun s c =>
    let '(result, c') :=
      if truthy (p_token s) then Client.logout (p_token s) net c
      else (Resolves tt, c) in
    let c' :=
      match result with
      | Resolves _ => c'
      | Rejects _ => snd (emit (ConsoleError "Logout error:") c')
      end in
    let '(s', c'') := clearAuth s c' in
    (Resolves tt, s', c'').

Definition refreshUser (now1 : Z) (net : HttpResult TokenVerificationResponse)
    (now2 : Z) : Effect unit :=
  fun s c =>
    if negb (truthy (p_token s)) then (Resolves tt, s, c)
    else
      match verifyToken (p_token s) now1 net now2 c with
      | (Resolves response, c') => (Resolves tt, setUser (tv_user response) s, c')
      | (Rejects error, c') =>
          let c' := snd (emit (ConsoleError "Failed to refresh user:") c') in
          let '(s', c'') := clearAuth s c' in
          (Resolves tt, s', c'')
      end.

(** The context value the provider passes down. *)
Definition value (s : ProviderState) : Guard.IAMContextValue :=
  {| Guard.user := p_user s; Guard.ctx_token := p_token s;
     Guard.isLoading := p_isLoading s |}.

(** The copies of the session agree: the provider's token is the
    client's, a user comes with a token, and the stored item is the token
    unless there is no token and the item is absent or empty. *)
Definition consistent (s : ProviderState) (c : IAMClient) : Prop :=
  p_token s = token c
  /\ (present (p_user s) = true -> present (p_token s) = true)
  /\ (p_storage s = p_token s
      \/ (p_token s = None /\ truthy (p_storage s) = false)).

(** The provider state after [clearAuth]: only [isLoading] is kept. *)
Definition signedOut (isLoading : bool) : ProviderState :=
  {| p_user := None; p_token := None; p_isLoading := isLoading; p_storage := None |}.

End Provider.

(** ** The hooks *)

Module Hooks.
Import Errors Client Methods.

(** [checkPermission] of [usePermission]: [mounted] is the flag when the
    check resolves, [hasAccess] the state before; the result is the state
    after. *)
Definition usePermission (ctx : Guard.IAMContextValue) (permission : string)
    (net : HttpResult bool) (mounted : bool) (hasAccess : bool) : Async bool :=
  let* result := Guard.hasPermission ctx permission net in
  ret (if mounted then result else hasAccess).

Definition useRole (ctx : Guard.IAMContextValue) (role : string)
    (net : HttpResult bool) (mounted : bool) (hasAccess : bool) : Async bool :=
  let* result := Guard.hasRole ctx role net in
  ret (if mounted then result else hasAccess).

(** The three pieces of state of a fetching hook. *)
Record FetchState (A : Type) := mkFetchState {
  fs_data : option A;
  fs_loading : bool;
  fs_error : option Thrown
}.
Arguments mkFetchState {A} _ _ _.
Arguments fs_data {A} _.
Arguments fs_loading {A} _.
Arguments fs_error {A} _.

(** The [try / catch / finally] shared by the fetching hooks, after the
    client's method has answered [result]. *)
Definition settle {A} (mounted : bool) (result : Outcome A) (st : FetchState A)
    : FetchState A :=
  let st := mkFetchState (fs_data st) true (fs_error st) in
  let st :=
    match result with
    | Resolves data =>
        if mounted then mkFetchState (Some data) (fs_loading st) None else st
    | Rejects err =>
        if mounted then mkFetchState (fs_data st) (fs_loading st) (Some err) else st
    end in
  if mounted then mkFetchState (fs_data st) false (fs_error st) else st.

(** [fetchUsers] of [useUsers] *)
Definition useUsers (net : HttpResult (PaginatedResponse User)) (mounted : bool)
    (st : FetchState (PaginatedResponse User)) (c : IAMClient)
    : FetchState (PaginatedResponse User) * IAMClient :=
  let '(result, c') := getUsers net c in
  (settle mounted result st, c').

(** An id of type [string | number]; a number id is an integer. *)
Inductive UserId :=
  | IdString (s : string)
  | IdNumber (n : Z).

(** Truthiness of [userId : string | number | null]: [null], the empty
    string and the number 0 are falsy. *)
Definition idTruthy (userId : option UserId) : bool :=
  match userId with
  | Some (IdString s) => negb (String.eqb s "")
  | Some (IdNumber n) => negb (Z.eqb n 0)
  | None => false
  end.

(** The text the template literal makes of an id. *)
Definition idText (userId : UserId) : string :=
  match userId with
  | IdString s => s
  | IdNumber n => pretty n
  end.

(** The effect of [useUser]: nothing is fetched for a falsy id. *)
Definition useUser (userId : option UserId) (net : HttpResult User) (mounted : bool)
    (st : FetchState User) (c : IAMClient) : FetchState User * IAMClient :=
  if negb (idTruthy userId) then (mkFetchState (fs_data st) false (fs_error st), c)
  else
    let '(result, c') := getUser (from_option idText "" userId) net c in
    (settle mounted result st, c').

End Hooks.

(** * Properties *)

(** ** Permission reconciliation *)

Section ReconcilerFacts.
Import Reconciler.

Lemma Set_add_fold (l s : list string) :
  fold_left (fun s x => Set_add x s) l s
  = s ++ filter (fun y => y ∉ s) (first_occurrences l).
Proof.
  revert s. induction l as [|x l IH]; intros s; simpl.
  - by rewrite app_nil_r.
  - rewrite IH. unfold Set_add. destruct (decide (x ∈ s)) as [Hin|Hout].
    + rewrite filter_cons_False by (intros H; by apply H).
      rewrite list_filter_filter_l; [done|].
      intros y Hy ->. by apply Hy.
    + rewrite filter_cons_True by done.
      rewrite <- app_assoc. simpl. do 2 f_equal.
      rewrite list_filter_filter. apply list_filter_iff.
      intros y. rewrite elem_of_app, list_elem_of_singleton. tauto.
Qed.

Lemma Set_new_first_occurrences (l : list string) :
  Set_new l = first_occurrences l.
Proof.
  unfold Set_new. rewrite Set_add_fold. simpl.
  induction (first_occurrences l) as [|y t IH]; [done|].
  rewrite filter_cons_True; [by rewrite IH|].
  intros H. inversion H.
Qed.

Lemma add_role_fold (roles : list Role) (s : list string) :
  fold_left add_role roles s
  = fold_left (fun s x => Set_add x s)
      (concat (map (fun r => map permName (default [] (role_permissions r))) roles)) s.
Proof.
  revert s. induction roles as [|r roles IH]; intros s; simpl; [done|].
  rewrite fold_left_app, IH. f_equal.
  unfold add_role. destruct (role_permissions r) as [ps|]; simpl; [|done].
  generalize s. induction ps as [|p ps IHp]; intros s0; simpl; [done|apply IHp].
Qed.

Lemma collect_fold flat user :
  collect flat user
  = fold_left (fun s x => Set_add x s) (role_names user) (Set_new (default [] flat)).
Proof.
  unfold collect, role_names.
  destruct user as [u|]; [destruct (user_roles u) as [roles|]|]; simpl; try done.
  apply add_role_fold.
Qed.

Lemma collect_first_occurrences flat user :
  collect flat user = first_occurrences (default [] flat ++ role_names user).
Proof.
  rewrite collect_fold, <- Set_new_first_occurrences.
  unfold Set_new. by rewrite fold_left_app.
Qed.

Lemma first_occurrences_elem (l : list string) (x : string) :
  x ∈ first_occurrences l ↔ x ∈ l.
Proof.
  induction l as [|y l IH]; simpl; [done|].
  rewrite !elem_of_cons, list_elem_of_filter, IH.
  destruct (decide (x = y)); tauto.
Qed.

Lemma first_occurrences_NoDup (l : list string) : NoDup (first_occurrences l).
Proof.
  induction l as [|y l IH]; simpl; constructor.
  - rewrite list_elem_of_filter. intros [H _]. by apply H.
  - by apply NoDup_filter.
Qed.


Lemma existsb_eqb_elem (x : string) (s : list string) :
  existsb (String.eqb x) s = bool_decide (x ∈ s).
Proof.
  induction s as [|y s IH].
  - symmetry. apply bool_decide_eq_false_2. intros H. inversion H.
  - cbn [existsb]. rewrite IH. destruct (String.eqb_spec x y) as [->|Hne]; cbn [orb].
    + symmetry. apply bool_decide_eq_true_2. by left.
    + apply bool_decide_ext. rewrite elem_of_cons. tauto.
Qed.

Lemma spec_insert_all_fold (names set : list string) :
  spec_insert_all names set = fold_left (fun s x => Set_add x s) names set.
Proof.
  revert set. induction names as [|n names IH]; intros set; simpl; [done|].
  rewrite IH. f_equal. unfold Set_add. rewrite existsb_eqb_elem.
  case_bool_decide; case_decide; done.
Qed.

Lemma collect_spec flat user : collect flat user = spec_reconcile flat user.
Proof.
  unfold spec_reconcile. rewrite !spec_insert_all_fold. apply collect_fold.
Qed.

(** C2. Both copies of the reconciler ([enrichPermissionsFromRoles] and
    [extractPermissionsFromLoginResponse]) return the list the
    specification describes: an insertion-ordered set seeded with the flat
    list (empty when absent), then fed every role's permission names in
    order, skipping names already present.  That list has no duplicates and
    is the flat list followed by the role names with every name kept at
    its first occurrence; a flat list a, b with roles contributing b, c
    gives a, b, c. *)
Theorem C2_reconciler_first_occurrence :
  (∀ data : TokenVerificationResponse,
      tv_permissions (enrichPermissionsFromRoles data)
      = Some (spec_reconcile (tv_permissions data) (tv_user data))
      ∧ tv_user (enrichPermissionsFromRoles data) = tv_user data
      ∧ tv_roles (enrichPermissionsFromRoles data) = tv_roles data)
  ∧ (∀ response : LoginResponse,
      extractPermissionsFromLoginResponse response
      = spec_reconcile (lr_permissions response) (lr_user response))
  ∧ (∀ flat user,
      spec_reconcile flat user
      = first_occurrences (default [] flat ++ role_names user)
      ∧ NoDup (spec_reconcile flat user)
      ∧ (∀ x, x ∈ spec_reconcile flat user ↔ x ∈ default [] flat ∨ x ∈ role_names user))
  ∧ (∀ user, role_names user = ["b"; "c"] →
      spec_reconcile (Some ["a"; "b"]) user = ["a"; "b"; "c"]).
Proof.
  split; [|split; [|split]].
  - intros data. unfold enrichPermissionsFromRoles. simpl.
    by rewrite collect_spec.
  - intros response. unfold extractPermissionsFromLoginResponse.
    apply collect_spec.
  - intros flat user. rewrite <- collect_spec, collect_first_occurrences.
    split; [done|]. split; [apply first_occurrences_NoDup|].
    intros x. by rewrite first_occurrences_elem, elem_of_app.
  - intros user Hroles. rewrite <- collect_spec, collect_first_occurrences, Hroles.
    vm_compute. reflexivity.
Qed.

(** The example of C2 on a concrete response: one role whose permissions
    are the bare string b and the object named c. *)
Lemma C2_reconciler_witness :
  role_names (Some (mkUser "1" "Ama" "ama@example.com"
     (Some [mkRole "r1" "editor" (Some [PermString "b"; PermObject "7" "c"])])))
  = ["b"; "c"]
  ∧ spec_reconcile (Some ["a"; "b"])
      (Some (mkUser "1" "Ama" "ama@example.com"
         (Some [mkRole "r1" "editor" (Some [PermString "b"; PermObject "7" "c"])])))
    = ["a"; "b"; "c"].
Proof.
  split; [reflexivity|].
  apply (proj2 (proj2 (proj2 C2_reconciler_first_occurrence))).
  reflexivity.
Defined.

End ReconcilerFacts.

(** ** Error normalization *)

Section ErrorFacts.
Import Errors.

Lemma handleError_with_body message axmsg status d prefer :
  err_message (handleError (with_body axmsg status d) message prefer)
  = finalMessage d message (firstMessage d message prefer).
Proof. reflexivity. Qed.

Lemma finalMessage_resolved d message text :
  text ≠ message → finalMessage d message text = text.
Proof.
  intros Hne. unfold finalMessage. destruct (ed_errors d); [|done].
  by destruct (String.eqb_spec text message).
Qed.

Lemma finalMessage_unresolved d message errors :
  ed_errors d = Some errors →
  finalMessage d message message
  = if String.eqb (fieldErrors errors) "" then message else fieldErrors errors.
Proof.
  intros He. unfold finalMessage. rewrite He, String.eqb_refl.
  by destruct (String.eqb (fieldErrors errors) "").
Qed.

Lemma truthy_Some (m : string) : m ≠ "" → truthy (Some m) = true.
Proof. intros H. simpl. by destruct (String.eqb_spec m ""). Qed.

(** C3, counterexample.  The body carries a field-error map whose first
    field has no message, and a top-level message; with the flag set the
    normalized text is the fallback: neither a first message of the first
    field nor the top-level message. *)
Lemma C3_counterexample :
  err_message
    (handleError
       (with_body "Request failed with status code 422" 422
          (mkErrorData (Some [("otp", MsgArray [])]) (Some "Bad request")))
       "Failed to send OTP" true) = "Failed to send OTP"
  ∧ ¬ C3_as_stated "Failed to send OTP" "Request failed with status code 422" 422
        (mkErrorData (Some [("otp", MsgArray [])]) (Some "Bad request"))
  ∧ "Failed to send OTP" ≠ "Bad request".
Proof.
  split; [reflexivity|]. split; [|discriminate].
  unfold C3_as_stated. simpl. discriminate.
Qed.

(** C3, amended.  With the flag set: when the first field of the map holds
    a non-empty array whose first message differs from the fallback, that
    message is the text; when the first field holds no such array the
    top-level message is not consulted and the text is the joined field
    messages, or the fallback when they are empty; when the body has no
    map, a non-empty top-level message is the text.  The body with
    errors otp: Invalid code and message Bad request gives Invalid code. *)
Theorem C3_detailed_message_preferred (message axmsg : string) (status : Z) :
  (∀ d field m rest others,
      ed_errors d = Some ((field, MsgArray (m :: rest)) :: others) →
      m ≠ message →
      err_message (handleError (with_body axmsg status d) message true) = m)
  ∧ (∀ d errors,
      ed_errors d = Some errors →
      (∀ m rest, firstFieldErrors errors ≠ Some (MsgArray (m :: rest))) →
      err_message (handleError (with_body axmsg status d) message true)
      = if String.eqb (fieldErrors errors) "" then message else fieldErrors errors)
  ∧ (∀ d m,
      ed_errors d = None → ed_message d = Some m → m ≠ "" →
      err_message (handleError (with_body axmsg status d) message true) = m)
  ∧ err_message
      (handleError
         (with_body axmsg status
            (mkErrorData (Some [("otp", MsgArray ["Invalid code"])]) (Some "Bad request")))
         message true) = "Invalid code".
Proof.
  split; [|split; [|split]].
  - intros d field m rest others He Hne.
    rewrite handleError_with_body.
    assert (firstMessage d message true = m) as ->.
    { unfold firstMessage. rewrite He. reflexivity. }
    by apply finalMessage_resolved.
  - intros d errors He Hfirst.
    rewrite handleError_with_body.
    assert (firstMessage d message true = message) as ->.
    { unfold firstMessage. rewrite He. simpl.
      destruct (firstFieldErrors errors) as [[[|m rest]|]|] eqn:Hf; try done.
      by destruct (Hfirst m rest). }
    by apply finalMessage_unresolved.
  - intros d m He Hm Hne.
    rewrite handleError_with_body.
    assert (firstMessage d message true = m) as ->.
    { unfold firstMessage. rewrite He, Hm, truthy_Some by done. reflexivity. }
    unfold finalMessage. by rewrite He.
  - rewrite handleError_with_body.
    change (firstMessage _ message true) with "Invalid code".
    unfold finalMessage. cbn [ed_errors].
    destruct (String.eqb "Invalid code" message); reflexivity.
Qed.

(** C3 amended, at concrete bodies: a first message that is taken, a first
    field without messages, and a body without a map. *)
Lemma C3_detailed_message_preferred_witness :
  err_message
    (handleError
       (with_body "Request failed with status code 422" 422
          (mkErrorData (Some [("phone", MsgArray ["Invalid phone"; "Too short"]);
                              ("otp", MsgArray ["Invalid code"])])
                       (Some "Bad request")))
       "Phone login failed" true) = "Invalid phone"
  ∧ err_message
      (handleError
         (with_body "Request failed with status code 422" 422
            (mkErrorData (Some [("otp", MsgArray [])]) (Some "Bad request")))
         "Phone login failed" true) = "Phone login failed"
  ∧ err_message
      (handleError
         (with_body "Request failed with status code 422" 422
            (mkErrorData None (Some "Bad request")))
         "Phone login failed" true) = "Bad request".
Proof.
  pose proof (C3_detailed_message_preferred "Phone login failed"
                "Request failed with status code 422" 422) as (H1 & H2 & H3 & _).
  split; [|split].
  - apply (H1 _ "phone" "Invalid phone" ["Too short"] [("otp", MsgArray ["Invalid code"])]);
      [reflexivity|discriminate].
  - apply (H2 _ [("otp", MsgArray [])]); [reflexivity|]. intros m rest. discriminate.
  - apply H3; [reflexivity|reflexivity|discriminate].
Defined.

(** C4, counterexample.  Without the flag and without a top-level message,
    the text for the map email: The email field is required. is the
    message alone; the field name is not part of it. *)
Lemma C4_counterexample :
  err_message
    (handleError
       (with_body "Request failed with status code 422" 422
          (mkErrorData (Some [("email", MsgArray ["The email field is required."])]) None))
       "Login failed" false) = "The email field is required."
  ∧ ¬ C4_as_stated "Login failed" "Request failed with status code 422" 422
        (mkErrorData (Some [("email", MsgArray ["The email field is required."])]) None)
        false.
Proof.
  split; [reflexivity|]. unfold C4_as_stated. intros H.
  specialize (H [("email", MsgArray ["The email field is required."])]
                eq_refl ltac:(discriminate) eq_refl eq_refl).
  vm_compute in H. discriminate.
Qed.

(** C4, amended.  When the detailed-message step produced no text and,
    without the flag, the top-level-message step produced none either, a
    body with a field-error map gets as text the messages of each field
    joined by a comma and a space, the fields joined by a semicolon and a
    space, without the field names; when that text is empty the fallback
    stays. *)
Theorem C4_field_messages_joined (message axmsg : string) (status : Z)
    (d : ErrorData) (preferDetailedMessage : bool) (errors : list (string * FieldMessages)) :
  ed_errors d = Some errors →
  spec_detailed_text d preferDetailedMessage = None →
  (preferDetailedMessage = false → spec_top_level_text d = None) →
  err_message (handleError (with_body axmsg status d) message preferDetailedMessage)
  = if String.eqb (fieldErrors errors) "" then message else fieldErrors errors.
Proof.
  intros He Hdet Htop.
  rewrite handleError_with_body.
  assert (firstMessage d message preferDetailedMessage = message) as ->.
  { unfold firstMessage, spec_detailed_text in *. rewrite He in *.
    destruct preferDetailedMessage; simpl in *.
    - destruct errors as [|[f [[|m rest]|m]] others]; simpl in *; done.
    - specialize (Htop eq_refl). unfold spec_top_level_text in Htop.
      destruct (ed_message d) as [m|]; simpl in *; [|done].
      destruct (String.eqb m ""); simpl in *; done. }
  by apply finalMessage_unresolved.
Qed.

Lemma C4_field_messages_joined_witness :
  err_message
    (handleError
       (with_body "Request failed with status code 422" 422
          (mkErrorData (Some [("email", MsgArray ["Required"; "Must be an email"]);
                              ("password", MsgScalar "Too short")]) None))
       "Login failed" false)
  = "Required, Must be an email; Too short".
Proof.
  apply (C4_field_messages_joined "Login failed" "Request failed with status code 422" 422
           _ false [("email", MsgArray ["Required"; "Must be an email"]);
                    ("password", MsgScalar "Too short")]);
    reflexivity.
Defined.

End ErrorFacts.

(** ** The session client *)

Section ClientFacts.
Import Reconciler Errors Client.

Lemma effective_token_truthy (arg current : option string) (T : string) :
  or_else arg current = Some T → T ≠ "" → truthy (or_else arg current) = true.
Proof. intros -> Hne. simpl. by destruct (String.eqb_spec T ""). Qed.

(** A fresh entry answers the call: nothing is sent, nothing changes. *)
Lemma verifyToken_hit c arg T r t0 t1 now2 net :
  or_else arg (token c) = Some T → T ≠ "" →
  tokenCache c !! cacheKey T = Some (mkCacheEntry r t0) →
  (t1 - t0 < cacheDuration)%Z →
  verifyToken arg t1 net now2 c = (Resolves r, c).
Proof.
  intros Heff Hne Hc Hlt. unfold verifyToken.
  rewrite (effective_token_truthy _ _ _ Heff Hne), Heff. simpl.
  unfold cacheFresh. rewrite Hc. simpl.
  by rewrite (proj2 (Z.ltb_lt _ _) Hlt).
Qed.

(** Without a fresh entry the request goes out, and a resolved answer is
    reconciled, stored under the token's key with the clock of the store,
    and returned. *)
Lemma verifyToken_miss_resolved c arg T t1 now2 d :
  or_else arg (token c) = Some T → T ≠ "" →
  cacheFresh c (cacheKey T) t1 = None →
  verifyToken arg t1 (Resolved d) now2 c
  = (Resolves (enrichPermissionsFromRoles d),
     {| config := config c; token := token c;
        tokenCache := <[cacheKey T := mkCacheEntry (enrichPermissionsFromRoles d) now2]>
                        (tokenCache c);
        log := log c ++ [Request "GET" "/auth/me" (request_authorization c (Some T))] |}).
Proof.
  intros Heff Hne Hmiss. unfold verifyToken.
  rewrite (effective_token_truthy _ _ _ Heff Hne), Heff. simpl.
  by rewrite Hmiss.
Qed.

(** Without a fresh entry the request goes out whatever the answer. *)
Lemma verifyToken_miss_requests c arg T t1 now2 net :
  or_else arg (token c) = Some T → T ≠ "" →
  cacheFresh c (cacheKey T) t1 = None →
  ∃ evs, log (snd (verifyToken arg t1 net now2 c))
         = log c ++ Request "GET" "/auth/me" (request_authorization c (Some T)) :: evs.
Proof.
  intros Heff Hne Hmiss. unfold verifyToken.
  rewrite (effective_token_truthy _ _ _ Heff Hne), Heff. simpl.
  rewrite Hmiss. destruct net as [d|e].
  - by exists [].
  - unfold try_catch, bind, http. simpl.
    destruct (is_401 e && onAuthError (config c)); simpl.
    + exists [OnAuthError]. by rewrite <- app_assoc.
    + by exists [].
Qed.

(** A rejected verification removes the token's entry and rejects with the
    normalized error. *)
Lemma verifyToken_miss_rejected c arg T t1 now2 e :
  or_else arg (token c) = Some T → T ≠ "" →
  cacheFresh c (cacheKey T) t1 = None →
  let r := verifyToken arg t1 (Rejected e) now2 c in
  fst r = Rejects (ThrownError (handleError e "Token verification failed" false))
  ∧ tokenCache (snd r) = delete (cacheKey T) (tokenCache c)
  ∧ token (snd r) = token c.
Proof.
  intros Heff Hne Hmiss. unfold verifyToken.
  rewrite (effective_token_truthy _ _ _ Heff Hne), Heff. simpl.
  rewrite Hmiss. unfold try_catch, bind, http. simpl.
  by destruct (is_401 e && onAuthError (config c)).
Qed.

Lemma cacheFresh_expired c T r t0 t1 :
  tokenCache c !! cacheKey T = Some (mkCacheEntry r t0) →
  (t1 - t0 >= cacheDuration)%Z →
  cacheFresh c (cacheKey T) t1 = None.
Proof.
  intros Hc Hge. unfold cacheFresh. rewrite Hc. simpl.
  destruct (Z.ltb_spec (t1 - t0) cacheDuration); [lia|done].
Qed.

(** C1. Let a call of [verifyToken] for the token T (the argument, or the
    current token when the argument is absent or empty) miss the cache and
    resolve: its reconciled result is stored for T with the time t0 of the
    store.  In any client whose cache holds a result stored for T at t0, a
    call for T at t1 with t1 - t0 < 60000 returns that result and leaves
    the client, its log of requests included, unchanged; a call at t1 with
    t1 - t0 >= 60000 sends GET /auth/me, and when the request resolves
    its reconciled result replaces the entry for T and is returned. *)
Theorem C1_verifyToken_cache_ttl (c : IAMClient) (arg : option string) (T : string) :
  or_else arg (token c) = Some T → T ≠ "" →
  (∀ t now2 d,
      cacheFresh c (cacheKey T) t = None →
      tokenCache (snd (verifyToken arg t (Resolved d) now2 c)) !! cacheKey T
      = Some (mkCacheEntry (enrichPermissionsFromRoles d) now2))
  ∧ (∀ r t0 t1 now2 net,
      tokenCache c !! cacheKey T = Some (mkCacheEntry r t0) →
      ((t1 - t0 < 60000)%Z → verifyToken arg t1 net now2 c = (Resolves r, c))
      ∧ ((t1 - t0 >= 60000)%Z →
          (∃ evs, log (snd (verifyToken arg t1 net now2 c))
                  = log c ++ Request "GET" "/auth/me" (request_authorization c (Some T)) :: evs)
          ∧ (∀ d, net = Resolved d →
              verifyToken arg t1 net now2 c
              = (Resolves (enrichPermissionsFromRoles d),
                 {| config := config c; token := token c;
                    tokenCache :=
                      <[cacheKey T := mkCacheEntry (enrichPermissionsFromRoles d) now2]>
                        (tokenCache c);
                    log := log c ++ [Request "GET" "/auth/me"
                                       (request_authorization c (Some T))] |})))).
Proof.
  intros Heff Hne. split.
  - intros t now2 d Hmiss.
    rewrite (verifyToken_miss_resolved c arg T t now2 d Heff Hne Hmiss). simpl.
    apply lookup_insert_eq.
  - intros r t0 t1 now2 net Hc. split.
    + intros Hlt. by apply (verifyToken_hit c arg T r t0).
    + intros Hge. pose proof (cacheFresh_expired c T r t0 t1 Hc Hge) as Hmiss.
      split.
      * by apply verifyToken_miss_requests.
      * intros d ->. by apply verifyToken_miss_resolved.
Qed.

(** C1 on the sample session, whose entry for T1 was stored at time 1000:
    a call at 60999 is answered from the cache although the transport
    would fail; a call at 61000 goes to the network and stores anew. *)
Lemma C1_verifyToken_cache_ttl_witness :
  verifyToken None 60999 (Rejected Examples.offline) 61000 Examples.session
  = (Resolves Examples.stored, Examples.session)
  ∧ fst (verifyToken None 61000 (Resolved Examples.me) 61005 Examples.session)
    = Resolves (enrichPermissionsFromRoles Examples.me).
Proof.
  assert (or_else None (token Examples.session) = Some "T1") as Heff by reflexivity.
  assert ("T1" ≠ "") as Hne by discriminate.
  assert (tokenCache Examples.session !! cacheKey "T1"
          = Some (mkCacheEntry Examples.stored 1000)) as Hc by (vm_compute; reflexivity).
  destruct (C1_verifyToken_cache_ttl Examples.session None "T1" Heff Hne) as [_ H].
  split.
  - apply (proj1 (H Examples.stored 1000%Z 60999%Z 61000%Z (Rejected Examples.offline) Hc)).
    lia.
  - destruct (H Examples.stored 1000%Z 61000%Z 61005%Z (Resolved Examples.me) Hc) as [_ H2].
    destruct H2 as [_ H2]; [lia|].
    by rewrite (H2 Examples.me eq_refl).
Defined.

Lemma add_permissions_values (permissions : list PermissionEntry) (set : list string) :
  Body.add_permissions (map Body.Value permissions) set
  = Body.Returns (fold_left (fun s p => Set_add (permName p) s) permissions set).
Proof.
  revert set. induction permissions as [|p ps IH]; intros set; simpl; [done|].
  apply IH.
Qed.

Lemma add_roles_values (roles : list Role) (set : list string) :
  Body.add_roles (map (fun r => Body.Value (Body.ofRole r)) roles) set
  = Body.Returns (fold_left add_role roles set).
Proof.
  revert set. induction roles as [|r roles IH]; intros set; simpl; [done|].
  unfold add_role at 2. destruct (role_permissions r) as [ps|]; simpl.
  - rewrite add_permissions_values. apply IH.
  - apply IH.
Qed.

(** On a body of the declared shape the extraction returns, and returns
    what the reconciler of the typed response computes. *)
Lemma extract_of_LoginResponse (r : LoginResponse) :
  Body.extractPermissionsFromLoginResponse (Body.ofLoginResponse r)
  = Body.Returns (extractPermissionsFromLoginResponse r).
Proof.
  unfold Body.extractPermissionsFromLoginResponse, extractPermissionsFromLoginResponse,
    collect. simpl.
  destruct (lr_permissions r) as [flat|]; simpl;
    (destruct (lr_user r) as [u|]; simpl; [|done];
     destruct (user_roles u) as [roles|]; simpl; [|done];
     apply add_roles_values).
Qed.

(** [Client.login] is [Runtime.login] on the bodies of the declared shape. *)
Lemma login_of_LoginResponse (credentials : LoginCredentials)
    (net : HttpResult LoginResponse) (c : IAMClient) :
  Runtime.login credentials (Runtime.bodyOfResult net) c
  = (Runtime.bodyOfOutcome (fst (login credentials net c)),
     snd (login credentials net c)).
Proof.
  unfold Runtime.login, login, try_catch, bind, http, throw. simpl.
  destruct net as [d|err]; simpl.
  - unfold Runtime.lift. by rewrite extract_of_LoginResponse.
  - by destruct (is_401 err && onAuthError (config c)).
Qed.

(** C5, counterexample.  The login request resolves with the new token T9
    and a user whose roles are not iterable: [login] has set the token
    when the extraction of the permissions throws, the [catch] rethrows,
    and [login] rejects while [getToken] returns T9 where it returned T1. *)
Lemma C5_counterexample :
  Runtime.login Examples.credentials (Resolved Examples.malformed) Examples.session
  = (Rejects (ThrownError
                (plainError "Login failed: response.user.roles is not iterable")),
     {| config := config Examples.session;
        token := Some "T9";
        tokenCache := tokenCache Examples.session;
        log := [Request "POST" "/auth/login" (Some "T1")] |})
  ∧ getToken Examples.session = Some "T1"
  ∧ ¬ Runtime.C5_as_stated Examples.credentials (Resolved Examples.malformed)
        Examples.session.
Proof.
  split; [reflexivity|]. split; [reflexivity|].
  unfold Runtime.C5_as_stated. intros H.
  specialize (H _ _ eq_refl). discriminate.
Qed.

(** C5, amended.  When the login request is rejected, [login] rejects with
    the normalized error for Login failed and [getToken] afterwards returns
    what it returned before the call.  When the request resolves with a
    body of the declared shape, [login] resolves.  So whenever [login]
    rejects and the answer is not a body on which the extraction of the
    permissions throws, [getToken] returns what it returned before. *)
Theorem C5_login_request_failure_keeps_token (credentials : LoginCredentials)
    (c : IAMClient) :
  (∀ err,
      fst (Runtime.login credentials (Rejected err) c)
      = Rejects (ThrownError (handleError err "Login failed" false))
      ∧ getToken (snd (Runtime.login credentials (Rejected err) c)) = getToken c)
  ∧ (∀ response,
      ∃ out, fst (Runtime.login credentials
                    (Resolved (Body.ofLoginResponse response)) c) = Resolves out)
  ∧ (∀ net e c',
      Runtime.login credentials net c = (Rejects e, c') →
      (∀ body thrown, net = Resolved body →
         Body.extractPermissionsFromLoginResponse body ≠ Body.Throws thrown) →
      getToken c' = getToken c).
Proof.
  split; [|split].
  - intros err. unfold Runtime.login, try_catch, bind, http, throw. simpl.
    by destruct (is_401 err && onAuthError (config c)).
  - intros response.
    pose proof (login_of_LoginResponse credentials (Resolved response) c) as H.
    simpl in H. rewrite H. simpl. by eexists.
  - intros net e c' Hrej Hbody. destruct net as [body|err].
    + exfalso. revert Hrej.
      unfold Runtime.login, try_catch, bind, http, throw, Runtime.lift. simpl.
      destruct (Body.extractPermissionsFromLoginResponse body) as [perms|thrown] eqn:Hx;
        simpl; [discriminate|].
      intros _. by apply (Hbody body thrown).
    + revert Hrej. unfold Runtime.login, try_catch, bind, http, throw. simpl.
      destruct (is_401 err && onAuthError (config c)); simpl;
        intros H; injection H as _ <-; reflexivity.
Qed.

Lemma C5_login_request_failure_keeps_token_witness :
  getToken (snd (Runtime.login Examples.credentials (Rejected Examples.invalid)
                   Examples.session))
  = Some "T1".
Proof.
  apply (proj2 (proj2 (C5_login_request_failure_keeps_token Examples.credentials
                         Examples.session))
           (Rejected Examples.invalid)
           (ThrownError (handleError Examples.invalid "Login failed" false))).
  - reflexivity.
  - intros body thrown H. discriminate.
Defined.

(** C6, counterexample.  For a 422 answer whose body has the map
    email: The email field is required. and the top-level message
    The given data was invalid., the error [login] raises carries the
    top-level message; the normalizer with the preference set would give
    the field's message. *)
Lemma C6_counterexample :
  fst (login Examples.credentials (Rejected Examples.invalid) Examples.session)
  = Rejects (ThrownError
      {| err_message := "The given data was invalid.";
         err_data := Some (mkErrorData
                             (Some [("email", MsgArray ["The email field is required."])])
                             (Some "The given data was invalid."));
         err_statusCode := Some 422%Z |})
  ∧ err_message (handleError Examples.invalid "Login failed" true)
    = "The email field is required."
  ∧ ¬ C6_as_stated Examples.credentials Examples.invalid Examples.session.
Proof.
  split; [reflexivity|]. split; [reflexivity|].
  unfold C6_as_stated. vm_compute. discriminate.
Qed.

(** C6, amended.  A failed [login] raises the error the normalizer builds
    for the fallback Login failed with the field-detail preference off:
    for a structured body with a non-empty top-level message other than
    the fallback, that message is the text, with or without a field-error
    map. *)
Theorem C6_login_error_not_detailed (credentials : LoginCredentials)
    (error : Thrown) (c : IAMClient) :
  fst (login credentials (Rejected error) c)
  = Rejects (ThrownError (handleError error "Login failed" false))
  ∧ (∀ axmsg status d m,
      error = with_body axmsg status d →
      ed_message d = Some m → m ≠ "" → m ≠ "Login failed" →
      err_message (handleError error "Login failed" false) = m).
Proof.
  split.
  - unfold login, try_catch, bind, http, throw. simpl.
    by destruct (is_401 error && onAuthError (config c)).
  - intros axmsg status d m -> Hm Hne Hfb.
    rewrite handleError_with_body.
    assert (firstMessage d "Login failed" false = m) as ->.
    { unfold firstMessage. rewrite Hm, truthy_Some by done. reflexivity. }
    by apply finalMessage_resolved.
Qed.

Lemma C6_login_error_not_detailed_witness :
  err_message (handleError Examples.invalid "Login failed" false)
  = "The given data was invalid.".
Proof.
  apply (proj2 (C6_login_error_not_detailed Examples.credentials Examples.invalid
                  Examples.session)
           "Request failed with status code 422" 422%Z
           (mkErrorData (Some [("email", MsgArray ["The email field is required."])])
                        (Some "The given data was invalid.")));
    [reflexivity|reflexivity|discriminate|discriminate].
Defined.

(** The client apart from its log: the two fields the callers can read. *)
Lemma http_keeps_state {A} method path headers (net : HttpResult A) c :
  token (snd (http method path headers net c)) = token c
  ∧ tokenCache (snd (http method path headers net c)) = tokenCache c
  ∧ config (snd (http method path headers net c)) = config c.
Proof.
  unfold http. destruct net as [d|e]; simpl; [done|].
  by destruct (is_401 e && onAuthError (config c)).
Qed.

(** C7. When the check request rejects, with any thrown value,
    [hasPermission] resolves to [false]; it resolves whatever the
    transport answers, and on a rejection the token and the cache stay as
    they were.  The same holds for [hasRole]. *)
Theorem C7_checks_fail_closed (name : string) (tok : option string) (c : IAMClient) :
  (∀ e, fst (hasPermission name tok (Rejected e) c) = Resolves false
        ∧ token (snd (hasPermission name tok (Rejected e) c)) = token c
        ∧ tokenCache (snd (hasPermission name tok (Rejected e) c)) = tokenCache c)
  ∧ (∀ net, ∃ b, fst (hasPermission name tok net c) = Resolves b)
  ∧ (∀ e, fst (hasRole name tok (Rejected e) c) = Resolves false
        ∧ token (snd (hasRole name tok (Rejected e) c)) = token c
        ∧ tokenCache (snd (hasRole name tok (Rejected e) c)) = tokenCache c)
  ∧ (∀ net, ∃ b, fst (hasRole name tok net c) = Resolves b).
Proof.
  split; [|split; [|split]].
  - intros e. unfold hasPermission, try_catch, bind, http. simpl.
    by destruct (is_401 e && onAuthError (config c)).
  - intros [b|e]; [by exists b|]. exists false.
    unfold hasPermission, try_catch, bind, http. simpl.
    by destruct (is_401 e && onAuthError (config c)).
  - intros e. unfold hasRole, try_catch, bind, http. simpl.
    by destruct (is_401 e && onAuthError (config c)).
  - intros [b|e]; [by exists b|]. exists false.
    unfold hasRole, try_catch, bind, http. simpl.
    by destruct (is_401 e && onAuthError (config c)).
Qed.

(** C8. [logout] resolves whatever the transport answers and leaves no
    current token and an empty cache.  [logoutAll] clears both when the
    request resolves; when it rejects, [logoutAll] rejects with the
    normalized error and the token and the cache stay as they were. *)
Theorem C8_logout_asymmetry (tok : option string) (c : IAMClient) :
  (∀ net,
      fst (logout tok net c) = Resolves tt
      ∧ token (snd (logout tok net c)) = None
      ∧ tokenCache (snd (logout tok net c)) = ∅)
  ∧ (∀ e,
      fst (logoutAll tok (Rejected e) c)
      = Rejects (ThrownError (handleError e "Logout all failed" false))
      ∧ token (snd (logoutAll tok (Rejected e) c)) = token c
      ∧ tokenCache (snd (logoutAll tok (Rejected e) c)) = tokenCache c)
  ∧ (fst (logoutAll tok (Resolved tt) c) = Resolves tt
      ∧ token (snd (logoutAll tok (Resolved tt) c)) = None
      ∧ tokenCache (snd (logoutAll tok (Resolved tt) c)) = ∅).
Proof.
  split; [|split].
  - intros [[]|e]; [done|].
    unfold logout, try_catch, bind, http. simpl.
    by destruct (is_401 e && onAuthError (config c)).
  - intros e. unfold logoutAll, try_catch, bind, http, throw. simpl.
    by destruct (is_401 e && onAuthError (config c)).
  - done.
Qed.

(** C10. When the refresh request resolves with an absent or empty
    [access_token], [refreshToken] resolves with that response, the
    current token and the cache stay as they were, and the only event is
    the request: [onTokenRefresh] is not called.  With a non-empty
    [access_token] the token is replaced and [onTokenRefresh], when
    configured, is called with it. *)
Theorem C10_refresh_without_access_token (tok : option string)
    (response : RefreshTokenResponse) (c : IAMClient) :
  (truthy (rt_access_token response) = false →
     refreshToken tok (Resolved response) c
     = (Resolves response,
        {| config := config c; token := token c; tokenCache := tokenCache c;
           log := log c ++ [Request "POST" "/auth/refresh"
                              (request_authorization c (bearer tok))] |}))
  ∧ (∀ t, rt_access_token response = Some t → t ≠ "" →
     refreshToken tok (Resolved response) c
     = (Resolves response,
        {| config := config c; token := Some t; tokenCache := tokenCache c;
           log := (log c ++ [Request "POST" "/auth/refresh"
                               (request_authorization c (bearer tok))])
                  ++ (if onTokenRefresh (config c) then [OnTokenRefresh t] else []) |})).
Proof.
  split.
  - intros Hfalsy. unfold refreshToken, try_catch, bind, http. simpl.
    by rewrite Hfalsy.
  - intros t Ht Hne. unfold refreshToken, try_catch, bind, http. simpl.
    rewrite Ht, truthy_Some by done. simpl.
    destruct (onTokenRefresh (config c)); simpl; [done|].
    by rewrite app_nil_r.
Qed.

(** C10 on the sample session: an empty and an absent [access_token] leave
    T1 in place; T2 replaces it and reaches the callback. *)
Lemma C10_refresh_without_access_token_witness :
  token (snd (refreshToken None (Resolved (mkRefreshTokenResponse (Some "") "Bearer" 3600))
                Examples.session)) = Some "T1"
  ∧ token (snd (refreshToken None (Resolved (mkRefreshTokenResponse None "Bearer" 3600))
                  Examples.session)) = Some "T1"
  ∧ log (snd (refreshToken None (Resolved (mkRefreshTokenResponse (Some "T2") "Bearer" 3600))
                Examples.session))
    = [Request "POST" "/auth/refresh" (Some "T1"); OnTokenRefresh "T2"].
Proof.
  split; [|split].
  - rewrite (proj1 (C10_refresh_without_access_token None
                      (mkRefreshTokenResponse (Some "") "Bearer" 3600) Examples.session));
      reflexivity.
  - rewrite (proj1 (C10_refresh_without_access_token None
                      (mkRefreshTokenResponse None "Bearer" 3600) Examples.session));
      reflexivity.
  - rewrite (proj2 (C10_refresh_without_access_token None
                      (mkRefreshTokenResponse (Some "T2") "Bearer" 3600) Examples.session)
               "T2"); [reflexivity|reflexivity|discriminate].
Defined.

End ClientFacts.

(** ** The route guard *)

Section GuardFacts.
Import Errors Client Guard.

Lemma bind_ret {A} (m : Async A) (c : IAMClient) :
  (let* x := m in ret x) c = m c.
Proof. unfold bind, ret. by destruct (m c) as [[a|e] c']. Qed.

Lemma requests_to_app path (l l' : list Event) :
  requests_to path (l ++ l') = requests_to path l ++ requests_to path l'.
Proof. apply List.filter_app. Qed.

Lemma hasPermission_sends_no_role_check ctx permission net c :
  requests_to "/auth/check-role" (log (snd (hasPermission ctx permission net c)))
  = requests_to "/auth/check-role" (log c).
Proof.
  unfold hasPermission. destruct (truthy (ctx_token ctx)); simpl; [|done].
  unfold Client.hasPermission, try_catch, bind, http.
  destruct net as [b|e]; simpl.
  - rewrite requests_to_app. simpl. by rewrite app_nil_r.
  - destruct (is_401 e && onAuthError (config c)); simpl;
      rewrite !requests_to_app; simpl; by rewrite !app_nil_r.
Qed.

Lemma hasRole_sends_no_permission_check ctx role net c :
  requests_to "/auth/check-permission" (log (snd (hasRole ctx role net c)))
  = requests_to "/auth/check-permission" (log c).
Proof.
  unfold hasRole. destruct (truthy (ctx_token ctx)); simpl; [|done].
  unfold Client.hasRole, try_catch, bind, http.
  destruct net as [b|e]; simpl.
  - rewrite requests_to_app. simpl. by rewrite app_nil_r.
  - destruct (is_401 e && onAuthError (config c)); simpl;
      rewrite !requests_to_app; simpl; by rewrite !app_nil_r.
Qed.

(** C9. [checkAccess] decides in this order.  Without a user it yields
    [false] and leaves the client unchanged, so no check request is sent,
    whatever [requiredPermission] and [requiredRole] are.  With a user and
    a non-empty [requiredPermission] it is the provider's permission check,
    and no role check is sent; otherwise with a non-empty [requiredRole] it
    is the provider's role check, and no permission check is sent;
    otherwise it yields [true] without a request.  Once loading is over,
    [false] renders as unauthorized and [true] renders the children. *)
Theorem C9_route_guard_priority (ctx : IAMContextValue)
    (requiredPermission requiredRole : option string)
    (netP netR : HttpResult bool) (c : IAMClient) :
  (isAuthenticated ctx = false →
     checkAccess ctx requiredPermission requiredRole netP netR c = (Resolves false, c))
  ∧ (isAuthenticated ctx = true → truthy requiredPermission = true →
     checkAccess ctx requiredPermission requiredRole netP netR c
     = hasPermission ctx (default "" requiredPermission) netP c
     ∧ requests_to "/auth/check-role"
         (log (snd (checkAccess ctx requiredPermission requiredRole netP netR c)))
       = requests_to "/auth/check-role" (log c))
  ∧ (isAuthenticated ctx = true → truthy requiredPermission = false →
     truthy requiredRole = true →
     checkAccess ctx requiredPermission requiredRole netP netR c
     = hasRole ctx (default "" requiredRole) netR c
     ∧ requests_to "/auth/check-permission"
         (log (snd (checkAccess ctx requiredPermission requiredRole netP netR c)))
       = requests_to "/auth/check-permission" (log c))
  ∧ (isAuthenticated ctx = true → truthy requiredPermission = false →
     truthy requiredRole = false →
     checkAccess ctx requiredPermission requiredRole netP netR c = (Resolves true, c))
  ∧ (isLoading ctx = false →
     ∀ window redirectTo,
       render ctx (Some false) window redirectTo
       = Unauthorized (if window && truthy redirectTo then redirectTo else None)
       ∧ render ctx (Some true) window redirectTo = Children).
Proof.
  split; [|split; [|split; [|split]]].
  - unfold checkAccess. by intros ->.
  - intros Hauth Hperm.
    assert (checkAccess ctx requiredPermission requiredRole netP netR c
            = hasPermission ctx (default "" requiredPermission) netP c) as ->.
    { unfold checkAccess. rewrite Hauth, Hperm. simpl. apply bind_ret. }
    split; [done|]. apply hasPermission_sends_no_role_check.
  - intros Hauth Hperm Hrole.
    assert (checkAccess ctx requiredPermission requiredRole netP netR c
            = hasRole ctx (default "" requiredRole) netR c) as ->.
    { unfold checkAccess. rewrite Hauth, Hperm, Hrole. simpl. apply bind_ret. }
    split; [done|]. apply hasRole_sends_no_permission_check.
  - unfold checkAccess. by intros -> -> ->.
  - intros Hload window redirectTo. unfold render. by rewrite Hload.
Qed.

(** C9 at concrete inputs: no user and a required role admin; a user with
    a required permission, the transport granting it; a user with only a
    required role, the transport failing; a user and no requirement. *)
Lemma C9_route_guard_priority_witness :
  checkAccess (mkIAMContextValue None None false) None (Some "admin")
    (Resolved true) (Resolved true) Examples.session
  = (Resolves false, Examples.session)
  ∧ fst (checkAccess (mkIAMContextValue (Some Examples.editor) (Some "T1") false)
           (Some "forms.create") (Some "admin")
           (Resolved true) (Resolved false) Examples.session)
    = Resolves true
  ∧ fst (checkAccess (mkIAMContextValue (Some Examples.editor) (Some "T1") false)
           None (Some "admin")
           (Resolved true) (Rejected Examples.offline) Examples.session)
    = Resolves false
  ∧ checkAccess (mkIAMContextValue (Some Examples.editor) (Some "T1") false)
      None None (Resolved false) (Resolved false) Examples.session
    = (Resolves true, Examples.session)
  ∧ render (mkIAMContextValue None None false) (Some false) true (Some "/login")
    = Unauthorized (Some "/login").
Proof.
  split; [|split; [|split; [|split]]].
  - apply (proj1 (C9_route_guard_priority (mkIAMContextValue None None false)
                    None (Some "admin") (Resolved true) (Resolved true) Examples.session)).
    reflexivity.
  - destruct (C9_route_guard_priority
                (mkIAMContextValue (Some Examples.editor) (Some "T1") false)
                (Some "forms.create") (Some "admin") (Resolved true) (Resolved false)
                Examples.session) as (_ & H & _).
    destruct H as [-> _]; reflexivity.
  - destruct (C9_route_guard_priority
                (mkIAMContextValue (Some Examples.editor) (Some "T1") false)
                None (Some "admin") (Resolved true) (Rejected Examples.offline)
                Examples.session) as (_ & _ & H & _).
    destruct H as [-> _]; reflexivity.
  - apply (C9_route_guard_priority
             (mkIAMContextValue (Some Examples.editor) (Some "T1") false)
             None None (Resolved false) (Resolved false) Examples.session); reflexivity.
  - apply (C9_route_guard_priority (mkIAMContextValue None None false)
             None None (Resolved false) (Resolved false) Examples.session); reflexivity.
Defined.

End GuardFacts.


(** ** More on the verification cache and the session client *)

Section CacheFacts.
Import Reconciler Errors Client.

Lemma cacheKey_inj (a b : string) : cacheKey a = cacheKey b → a = b.
Proof. unfold cacheKey. simpl. intros H. by injection H. Qed.

(** Whatever the call, the cache afterwards is the cache before, or the
    cache with the effective token's entry written or removed; the current
    token and the configuration stay. *)
Lemma verifyToken_shape c arg t1 net now2 :
  let c' := snd (verifyToken arg t1 net now2 c) in
  token c' = token c ∧ config c' = config c
  ∧ (tokenCache c' = tokenCache c
     ∨ ∃ T, or_else arg (token c) = Some T
            ∧ ((∃ entry, tokenCache c' = <[cacheKey T := entry]> (tokenCache c))
               ∨ tokenCache c' = delete (cacheKey T) (tokenCache c))).
Proof.
  unfold verifyToken.
  destruct (truthy (or_else arg (token c))) eqn:Htr; simpl; [|by auto].
  destruct (or_else arg (token c)) as [T|] eqn:Heff; [|done]. simpl.
  destruct (cacheFresh c (cacheKey T) t1); simpl; [by auto|].
  unfold try_catch, bind, http. destruct net as [d|e]; simpl.
  - split; [done|]. split; [done|]. right. exists T. split; [done|]. left. eauto.
  - destruct (is_401 e && onAuthError (config c)); simpl;
      (split; [done|]; split; [done|]; right; exists T; by auto).
Qed.

(** X1. Without an effective token (no argument or an empty one, and no
    current token or an empty one) [verifyToken] rejects with
    No token provided, sends nothing and leaves the client as it was. *)
Theorem X1_verifyToken_without_token (c : IAMClient) (arg : option string)
    (t1 now2 : Z) (net : HttpResult TokenVerificationResponse) :
  truthy (or_else arg (token c)) = false →
  verifyToken arg t1 net now2 c
  = (Rejects (ThrownError (plainError "No token provided")), c).
Proof. intros H. unfold verifyToken. by rewrite H. Qed.

Lemma X1_verifyToken_without_token_witness :
  verifyToken (Some "") 0 (Resolved Examples.me) 0
    (mkIAMClient (mkIAMConfig false false) None ∅ [])
  = (Rejects (ThrownError (plainError "No token provided")),
     mkIAMClient (mkIAMConfig false false) None ∅ []).
Proof. apply X1_verifyToken_without_token. reflexivity. Defined.

(** X2. A call of [verifyToken] for the token T never touches the cache
    entry of another token, and never changes the current token, whatever
    the transport answers. *)
Theorem X2_verifyToken_other_entries (c : IAMClient) (arg : option string)
    (T T' : string) (t1 now2 : Z) (net : HttpResult TokenVerificationResponse) :
  or_else arg (token c) = Some T → T' ≠ T →
  tokenCache (snd (verifyToken arg t1 net now2 c)) !! cacheKey T'
  = tokenCache c !! cacheKey T'
  ∧ getToken (snd (verifyToken arg t1 net now2 c)) = getToken c.
Proof.
  intros Heff Hne.
  destruct (verifyToken_shape c arg t1 net now2) as (Htok & _ & Hcache).
  split; [|done].
  assert (cacheKey T ≠ cacheKey T') as Hk.
  { intros H. apply Hne. symmetry. by apply cacheKey_inj. }
  destruct Hcache as [->|(T0 & HT0 & [[entry ->]| ->])]; [done| |].
  - rewrite Heff in HT0. injection HT0 as <-. by rewrite lookup_insert_ne.
  - rewrite Heff in HT0. injection HT0 as <-. by rewrite lookup_delete_ne.
Qed.

Lemma X2_verifyToken_other_entries_witness :
  tokenCache (snd (verifyToken (Some "T2") 70000 (Rejected Examples.offline) 70001
                     Examples.session)) !! cacheKey "T1"
  = Some (mkCacheEntry Examples.stored 1000).
Proof.
  rewrite (proj1 (X2_verifyToken_other_entries Examples.session (Some "T2") "T2" "T1"
                    70000 70001 (Rejected Examples.offline) eq_refl ltac:(discriminate))).
  vm_compute. reflexivity.
Defined.

(** X3. When the verification request for T is rejected, [verifyToken]
    rejects with the normalized error for Token verification failed and
    the entry of T is gone, also a stale one; the next call for T, at any
    time, sends a request again. *)
Theorem X3_failed_verification_invalidates (c : IAMClient) (arg : option string)
    (T : string) (t1 now2 : Z) (e : Thrown) :
  or_else arg (token c) = Some T → T ≠ "" →
  cacheFresh c (cacheKey T) t1 = None →
  let c1 := snd (verifyToken arg t1 (Rejected e) now2 c) in
  fst (verifyToken arg t1 (Rejected e) now2 c)
  = Rejects (ThrownError (handleError e "Token verification failed" false))
  ∧ tokenCache c1 !! cacheKey T = None
  ∧ ∀ t net now,
      ∃ evs, log (snd (verifyToken arg t net now c1))
             = log c1 ++ Request "GET" "/auth/me" (request_authorization c1 (Some T)) :: evs.
Proof.
  intros Heff Hne Hmiss c1.
  destruct (verifyToken_miss_rejected c arg T t1 now2 e Heff Hne Hmiss)
    as (Hres & Hcache & Htok).
  fold c1 in Hcache, Htok.
  split; [done|].
  assert (tokenCache c1 !! cacheKey T = None) as Hnone.
  { rewrite Hcache. apply lookup_delete_eq. }
  split; [done|]. intros t net now.
  apply verifyToken_miss_requests; [by rewrite Htok|done|].
  unfold cacheFresh. by rewrite Hnone.
Qed.

Lemma X3_failed_verification_invalidates_witness :
  tokenCache (snd (verifyToken None 61000 (Rejected Examples.offline) 61001
                     Examples.session)) !! cacheKey "T1" = None.
Proof.
  apply (X3_failed_verification_invalidates Examples.session None "T1" 61000 61001
           Examples.offline eq_refl ltac:(discriminate)).
  vm_compute. reflexivity.
Defined.

(** X4. Two calls in a row: when the first misses the cache and resolves,
    storing at time now2, a second call for the same token at a time t2
    with t2 - now2 < 60000 returns the same data and leaves the client,
    log included, as the first call left it. *)
Theorem X4_second_verification_is_cached (c : IAMClient) (arg : option string)
    (T : string) (t1 now2 t2 now3 : Z) (d : TokenVerificationResponse)
    (net : HttpResult TokenVerificationResponse) :
  or_else arg (token c) = Some T → T ≠ "" →
  cacheFresh c (cacheKey T) t1 = None →
  (t2 - now2 < 60000)%Z →
  verifyToken arg t2 net now3 (snd (verifyToken arg t1 (Resolved d) now2 c))
  = (fst (verifyToken arg t1 (Resolved d) now2 c),
     snd (verifyToken arg t1 (Resolved d) now2 c)).
Proof.
  intros Heff Hne Hmiss Hlt.
  rewrite (verifyToken_miss_resolved c arg T t1 now2 d Heff Hne Hmiss). simpl.
  apply (verifyToken_hit _ arg T _ now2); [done|done| |done].
  simpl. apply lookup_insert_eq.
Qed.

Lemma X4_second_verification_is_cached_witness :
  fst (verifyToken (Some "T2") 5000 (Rejected Examples.offline) 5001
         (snd (verifyToken (Some "T2") 2000 (Resolved Examples.me) 2001 Examples.session)))
  = Resolves (enrichPermissionsFromRoles Examples.me).
Proof.
  rewrite (X4_second_verification_is_cached Examples.session (Some "T2") "T2"
             2000 2001 5000 5001 Examples.me (Rejected Examples.offline)
             eq_refl ltac:(discriminate)); [reflexivity| |lia].
  vm_compute. reflexivity.
Defined.

(** X5. After [clearToken] there is no current token and no cache entry is
    fresh at any time: a verification with an explicit token goes to the
    network, and one without an argument rejects with No token provided. *)
Theorem X5_clearToken_forgets (c : IAMClient) :
  let c0 := snd (clearToken c) in
  getToken c0 = None
  ∧ (∀ key now, cacheFresh c0 key now = None)
  ∧ (∀ T t net now2, T ≠ "" →
       ∃ evs, log (snd (verifyToken (Some T) t net now2 c0))
              = log c ++ Request "GET" "/auth/me" (Some T) :: evs)
  ∧ (∀ t net now2,
       verifyToken None t net now2 c0
       = (Rejects (ThrownError (plainError "No token provided")), c0)).
Proof.
  intros c0. split; [done|].
  assert (∀ key now, cacheFresh c0 key now = None) as Hfresh.
  { intros key now. unfold cacheFresh. simpl. by rewrite lookup_empty. }
  split; [done|]. split.
  - intros T t net now2 Hne.
    assert (or_else (Some T) (token c0) = Some T) as Heff.
    { unfold or_else. by rewrite truthy_Some. }
    destruct (verifyToken_miss_requests c0 (Some T) T t now2 net Heff Hne (Hfresh _ _))
      as [evs Hevs].
    exists evs. by rewrite Hevs.
  - intros t net now2. reflexivity.
Qed.

Lemma X5_clearToken_forgets_witness :
  ∃ evs, log (snd (verifyToken (Some "T1") 1001 (Resolved Examples.me) 1002
                     (snd (clearToken Examples.session))))
         = log Examples.session ++ Request "GET" "/auth/me" (Some "T1") :: evs.
Proof.
  apply (proj1 (proj2 (proj2 (X5_clearToken_forgets Examples.session)))).
  discriminate.
Defined.

End CacheFacts.

(** ** More on login, the interceptors and the checks *)

Section SessionFacts.
Import Reconciler Errors Client.

(** X6. When the login request resolves, [login] makes the response's
    [access_token] the current token, leaves the cache as it was, sends
    one request, and resolves with the response whose permissions are the
    flat list followed by the role names, each name kept at its first
    occurrence; the other fields are those of the response. *)
Theorem X6_login_success (credentials : LoginCredentials) (response : LoginResponse)
    (c : IAMClient) :
  login credentials (Resolved response) c
  = (Resolves
       {| lr_access_token := lr_access_token response;
          lr_token_type := lr_token_type response;
          lr_expires_in := lr_expires_in response;
          lr_user := lr_user response;
          lr_permissions :=
            Some (first_occurrences
                    (default [] (lr_permissions response)
                     ++ role_names (lr_user response))) |},
     {| config := config c;
        token := Some (lr_access_token response);
        tokenCache := tokenCache c;
        log := log c ++ [Request "POST" "/auth/login" (request_authorization c None)] |}).
Proof.
  unfold login, try_catch, bind, http. simpl.
  unfold extractPermissionsFromLoginResponse.
  by rewrite collect_first_occurrences.
Qed.

(** X7. [login] does not clear the verification cache: a result cached for
    an earlier token T0 is still served, without a request, to a
    verification of T0 made after another login, while it is fresh. *)
Theorem X7_login_keeps_cache (credentials : LoginCredentials) (response : LoginResponse)
    (c : IAMClient) (T0 : string) (r : TokenVerificationResponse) (t0 t1 now2 : Z)
    (net : HttpResult TokenVerificationResponse) :
  T0 ≠ "" →
  tokenCache c !! cacheKey T0 = Some (mkCacheEntry r t0) →
  (t1 - t0 < 60000)%Z →
  let c1 := snd (login credentials (Resolved response) c) in
  verifyToken (Some T0) t1 net now2 c1 = (Resolves r, c1).
Proof.
  intros Hne Hc Hlt c1.
  apply (verifyToken_hit c1 (Some T0) T0 r t0); [|done|done|done].
  unfold or_else. by rewrite truthy_Some.
Qed.

Lemma X7_login_keeps_cache_witness :
  fst (verifyToken (Some "T1") 2000 (Rejected Examples.offline) 2001
         (snd (login Examples.credentials
                 (Resolved (mkLoginResponse "T9" "Bearer" 3600 None None))
                 Examples.session)))
  = Resolves Examples.stored.
Proof.
  rewrite (X7_login_keeps_cache Examples.credentials
             (mkLoginResponse "T9" "Bearer" 3600 None None) Examples.session
             "T1" Examples.stored 1000 2000 2001 (Rejected Examples.offline));
    [reflexivity|discriminate|vm_compute; reflexivity|lia].
Defined.

Lemma http_log {A} method path headers (net : HttpResult A) c :
  ∃ evs, log (snd (http method path headers net c))
         = log c ++ Request method path (request_authorization c headers) :: evs.
Proof.
  unfold http. destruct net as [d|e]; simpl; [by exists []|].
  destruct (is_401 e && onAuthError (config c)); simpl.
  - exists [OnAuthError]. by rewrite <- app_assoc.
  - by exists [].
Qed.

(** X8. The request interceptor lets the current token win: while the
    client has a non-empty current token, the permission check, the role
    check and the verification request leave with that token as
    [Authorization], whatever token the caller passed; without a current
    token they leave with the caller's token. *)
Theorem X8_current_token_overrides (c : IAMClient) (name : string)
    (tok : option string) (net : HttpResult bool) :
  (truthy (token c) = true →
     (∃ evs, log (snd (hasPermission name tok net c))
             = log c ++ Request "POST" "/auth/check-permission" (token c) :: evs)
     ∧ (∃ evs, log (snd (hasRole name tok net c))
               = log c ++ Request "POST" "/auth/check-role" (token c) :: evs)
     ∧ (∀ T t1 now2 netv, T ≠ "" → cacheFresh c (cacheKey T) t1 = None →
          ∃ evs, log (snd (verifyToken (Some T) t1 netv now2 c))
                 = log c ++ Request "GET" "/auth/me" (token c) :: evs))
  ∧ (truthy (token c) = false →
     (∃ evs, log (snd (hasPermission name tok net c))
             = log c ++ Request "POST" "/auth/check-permission" (bearer tok) :: evs)
     ∧ (∃ evs, log (snd (hasRole name tok net c))
               = log c ++ Request "POST" "/auth/check-role" (bearer tok) :: evs)).
Proof.
  assert (∀ path label,
            ∃ evs, log (snd (try_catch
                               (let* b := http "POST" path (bearer tok) net in ret b)
                               (fun _ => let* _ := emit (ConsoleError label) in ret false)
                               c))
                   = log c ++ Request "POST" path (request_authorization c (bearer tok))
                                :: evs) as Hcheck.
  { intros path label. unfold try_catch, bind, http.
    destruct net as [b|e]; simpl; [by exists []|].
    destruct (is_401 e && onAuthError (config c)); simpl.
    - exists [OnAuthError; ConsoleError label]. by rewrite <- !app_assoc.
    - exists [ConsoleError label]. by rewrite <- !app_assoc. }
  split; intros Htok.
  - assert (∀ h, request_authorization c h = token c) as Hreq.
    { intros h. unfold request_authorization. by rewrite Htok. }
    split; [|split].
    + destruct (Hcheck "/auth/check-permission" "Permission check failed:") as [evs H].
      exists evs. by rewrite <- (Hreq (bearer tok)).
    + destruct (Hcheck "/auth/check-role" "Role check failed:") as [evs H].
      exists evs. by rewrite <- (Hreq (bearer tok)).
    + intros T t1 now2 netv Hne Hmiss.
      rewrite <- (Hreq (Some T)).
      apply verifyToken_miss_requests; [|done|done].
      unfold or_else. by rewrite truthy_Some.
  - assert (∀ h, request_authorization c h = h) as Hreq.
    { intros h. unfold request_authorization. by rewrite Htok. }
    split.
    + destruct (Hcheck "/auth/check-permission" "Permission check failed:") as [evs H].
      exists evs. by rewrite <- (Hreq (bearer tok)).
    + destruct (Hcheck "/auth/check-role" "Role check failed:") as [evs H].
      exists evs. by rewrite <- (Hreq (bearer tok)).
Qed.

Lemma X8_current_token_overrides_witness :
  (∃ evs, log (snd (hasPermission "forms.create" (Some "T2") (Resolved true)
                      Examples.session))
          = log Examples.session
            ++ Request "POST" "/auth/check-permission" (Some "T1") :: evs)
  ∧ (∃ evs, log (snd (hasPermission "forms.create" (Some "T2") (Resolved true)
                        (mkIAMClient (mkIAMConfig false false) None ∅ [])))
            = [] ++ Request "POST" "/auth/check-permission" (Some "T2") :: evs).
Proof.
  split.
  - apply (proj1 (X8_current_token_overrides Examples.session "forms.create" (Some "T2")
                    (Resolved true))).
    reflexivity.
  - apply (proj2 (X8_current_token_overrides
                    (mkIAMClient (mkIAMConfig false false) None ∅ [])
                    "forms.create" (Some "T2") (Resolved true))).
    reflexivity.
Defined.

(** X9. A rejected permission or role check is swallowed, but the response
    interceptor has run before: the events of the call are the request,
    then [onAuthError] exactly when the status is 401 and the callback is
    configured, then the console message. *)
Theorem X9_checks_notify_auth_error (c : IAMClient) (name : string)
    (tok : option string) (e : Thrown) :
  log (snd (hasPermission name tok (Rejected e) c))
  = log c
    ++ [Request "POST" "/auth/check-permission" (request_authorization c (bearer tok))]
    ++ (if is_401 e && onAuthError (config c) then [OnAuthError] else [])
    ++ [ConsoleError "Permission check failed:"]
  ∧ log (snd (hasRole name tok (Rejected e) c))
    = log c
      ++ [Request "POST" "/auth/check-role" (request_authorization c (bearer tok))]
      ++ (if is_401 e && onAuthError (config c) then [OnAuthError] else [])
      ++ [ConsoleError "Role check failed:"].
Proof.
  unfold hasPermission, hasRole, try_catch, bind, http. simpl.
  destruct (is_401 e && onAuthError (config c)); simpl;
    by rewrite <- !app_assoc.
Qed.

End SessionFacts.

(** ** More on error normalization *)

Section NormalizerFacts.
Import Errors.

Lemma append_nonempty (a b : string) : a ≠ "" → a +:+ b ≠ "".
Proof. destruct a; [done|]. discriminate. Qed.

(** X10. The body and the status code travel together: an error without a
    structured body (no response, or a response whose body is absent or
    empty) is normalized to the text fallback: transport message, with
    neither data nor status code, whatever the flag; with a structured
    body both the body and the status are attached. *)
Theorem X10_status_needs_body (a : AxiosError) (message : string) (prefer : bool) :
  (response_data a = None →
     handleError (ThrownAxios a) message prefer
     = {| err_message := message +:+ ": " +:+ ax_message a;
          err_data := None; err_statusCode := None |})
  ∧ (∀ d, response_data a = Some d →
       err_data (handleError (ThrownAxios a) message prefer) = Some d
       ∧ ∃ status, response_status a = Some status
                   ∧ err_statusCode (handleError (ThrownAxios a) message prefer)
                     = Some status).
Proof.
  split.
  - intros H. unfold handleError. by rewrite H.
  - intros d H. unfold handleError. rewrite H. simpl. split; [done|].
    unfold response_data, response_status in *.
    destruct (ax_response a) as [r|]; [|done]. by exists (resp_status r).
Qed.

(** A 500 whose body is empty: the status code is not on the error. *)
Lemma X10_status_needs_body_witness :
  handleError
    (ThrownAxios (mkAxiosError "Request failed with status code 500"
                    (Some (mkAxiosResponse 500 None))))
    "Failed to fetch users" false
  = {| err_message := "Failed to fetch users: Request failed with status code 500";
       err_data := None; err_statusCode := None |}.
Proof.
  apply (proj1 (X10_status_needs_body
                  (mkAxiosError "Request failed with status code 500"
                     (Some (mkAxiosResponse 500 None)))
                  "Failed to fetch users" false)).
  reflexivity.
Defined.

(** X11. The flag matters only for a body with a field-error map: for an
    error that is not a transport error, a transport error without a
    structured body, or a body without the map, the normalized error is
    the same with and without [preferDetailedMessage]. *)
Theorem X11_flag_needs_field_errors (e : Thrown) (message : string) :
  (∀ a d, e = ThrownAxios a → response_data a = Some d → ed_errors d = None) →
  handleError e message true = handleError e message false.
Proof.
  intros H. destruct e as [a|je]; [|done].
  unfold handleError. destruct (response_data a) as [d|] eqn:Hd; [|done].
  unfold firstMessage. by rewrite (H a d eq_refl Hd).
Qed.

Lemma X11_flag_needs_field_errors_witness :
  handleError (with_body "Request failed with status code 401" 401
                 (mkErrorData None (Some "Unauthenticated.")))
    "Failed to send OTP" true
  = handleError (with_body "Request failed with status code 401" 401
                   (mkErrorData None (Some "Unauthenticated.")))
      "Failed to send OTP" false.
Proof.
  apply X11_flag_needs_field_errors.
  intros a d Ha Hd. injection Ha as <-. injection Hd as <-. reflexivity.
Defined.

(** X12. Without the flag the normalized message is never empty when the
    fallback is not; with the flag it can be: the empty first message of
    the first field is taken as it is. *)
Theorem X12_message_not_empty (message : string) :
  message ≠ "" →
  (∀ e, err_message (handleError e message false) ≠ "")
  ∧ (∀ axmsg status,
       err_message
         (handleError
            (with_body axmsg status (mkErrorData (Some [("otp", MsgArray [""])]) None))
            message true) = "").
Proof.
  intros Hne. split.
  - intros [a|je]; unfold handleError.
    + destruct (response_data a) as [d|]; [|by apply append_nonempty]. simpl.
      assert (firstMessage d message false ≠ "") as Hfirst.
      { unfold firstMessage. simpl.
        destruct (ed_message d) as [m|]; simpl; [|done].
        destruct (String.eqb_spec m ""); simpl; done. }
      unfold finalMessage. destruct (ed_errors d) as [errors|]; [|done].
      destruct (String.eqb (firstMessage d message false) message); [|done].
      destruct (String.eqb_spec (fieldErrors errors) ""); simpl; done.
    + by apply append_nonempty.
  - intros axmsg status. rewrite handleError_with_body.
    change (firstMessage _ message true) with "".
    apply finalMessage_resolved. by intros <-.
Qed.

Lemma X12_message_not_empty_witness :
  err_message (handleError Examples.offline "Login failed" false) ≠ "".
Proof.
  apply (proj1 (X12_message_not_empty "Login failed" ltac:(discriminate))).
Defined.

(** X13. The joined field text does not depend on the field names: two
    maps with the same values in the same order give the same text. *)
Theorem X13_field_names_ignored (errors errors' : list (string * FieldMessages)) :
  map snd errors = map snd errors' →
  fieldErrors errors = fieldErrors errors'.
Proof.
  intros H. unfold fieldErrors. f_equal.
  assert (∀ l : list (string * FieldMessages),
            map (fun entry : string * FieldMessages =>
                   let '(field, messages) := entry in String.concat ", " (msgs messages)) l
            = map (fun v => String.concat ", " (msgs v)) (map snd l)) as Hmap.
  { induction l as [|[f v] l IH]; simpl; [done|]. by rewrite IH. }
  by rewrite !Hmap, H.
Qed.

Lemma X13_field_names_ignored_witness :
  fieldErrors [("email", MsgArray ["Required"]); ("password", MsgScalar "Too short")]
  = fieldErrors [("phone", MsgArray ["Required"]); ("otp", MsgScalar "Too short")].
Proof. apply X13_field_names_ignored. reflexivity. Defined.

End NormalizerFacts.

(** ** The phone and OTP flow, user management and session verification *)

Section MethodsFacts.
Import Reconciler Errors Client Methods.

Ltac forwards :=
  let net := fresh "net" in
  let c := fresh "c" in
  let d := fresh "d" in
  let e := fresh "e" in
  intros net c; unfold try_catch, bind, http, throw, ret;
  destruct net as [d|e]; simpl;
  [ try destruct d; done
  | destruct (is_401 e && onAuthError (config c)); done ].



(** X15. [sendOtp], [verifyPhone] and [confirmPhoneVerification] only
    forward: each resolves with the transport's data, rejects with the
    normalized error for its own fallback with the field-detail preference
    set, and never changes the current token or the cache. *)
Theorem X15_otp_methods_forward (request : SendOtpRequest) (phone otp : string) :
  pass_through (sendOtp request) "Failed to send OTP" true
  ∧ pass_through (verifyPhone phone) "Failed to send phone verification OTP" true
  ∧ pass_through (confirmPhoneVerification phone otp)
      "Failed to confirm phone verification" true.
Proof.
  split; [|split].
  - unfold pass_through, sendOtp. forwards.
  - unfold pass_through, verifyPhone. forwards.
  - unfold pass_through, confirmPhoneVerification. forwards.
Qed.

(** X16. The user-management methods only forward: each resolves with the
    transport's data, rejects with the normalized error for its own
    fallback with the field-detail preference off, and never changes the
    current token or the cache. *)
Theorem X16_user_methods_forward (userId : string) :
  pass_through getUsers "Failed to fetch users" false
  ∧ pass_through (getUser userId) "Failed to fetch user" false
  ∧ pass_through createUser "Failed to create user" false
  ∧ pass_through (updateUser userId) "Failed to update user" false
  ∧ pass_through (deleteUser userId) "Failed to delete user" false.
Proof.
  split; [|split; [|split; [|split]]].
  - unfold pass_through, getUsers. forwards.
  - unfold pass_through, getUser. forwards.
  - unfold pass_through, createUser. forwards.
  - unfold pass_through, updateUser. forwards.
  - unfold pass_through, deleteUser. forwards.
Qed.

(** X29. The department and position methods only forward: each
    resolves with the transport's data, rejects with the normalized error
    for its own fallback with the field-detail preference off, and never
    changes the current token or the cache. *)
Theorem X29_department_position_methods_forward (id query : string) :
  (pass_through getDepartments "Failed to fetch departments" false
   ∧ pass_through (getDepartment id) "Failed to fetch department" false
   ∧ pass_through createDepartment "Failed to create department" false
   ∧ pass_through (updateDepartment id) "Failed to update department" false
   ∧ pass_through (deleteDepartment id) "Failed to delete department" false
   ∧ pass_through (getUsersByDepartment id) "Failed to fetch department users" false
   ∧ pass_through (searchDepartments query) "Failed to search departments" false)
  ∧ (pass_through getPositions "Failed to fetch positions" false
     ∧ pass_through (getPosition id) "Failed to fetch position" false
     ∧ pass_through (getPositionsByDepartment id)
         "Failed to fetch department positions" false
     ∧ pass_through createPosition "Failed to create position" false
     ∧ pass_through (updatePosition id) "Failed to update position" false
     ∧ pass_through (deletePosition id) "Failed to delete position" false
     ∧ pass_through (getUsersByPosition id) "Failed to fetch position users" false
     ∧ pass_through (searchPositions query) "Failed to search positions" false).
Proof.
  split.
  - repeat split; unfold getDepartments, getDepartment, createDepartment,
      updateDepartment, deleteDepartment, getUsersByDepartment, searchDepartments;
      revert net c; forwards.
  - repeat split; unfold getPositions, getPosition, getPositionsByDepartment,
      createPosition, updatePosition, deletePosition, getUsersByPosition,
      searchPositions; revert net c; forwards.
Qed.

(** X17. [verifySession] goes around the interceptors and the cache: its
    one request carries no [Authorization] even when the client has a
    current token, a 401 does not reach [onAuthError], nothing is written
    to the cache and the current token stays; it resolves with the
    reconciled response and rejects with the normalized error for
    Session verification failed. *)
Theorem X17_verifySession_bypasses (baseUrl sessionCookie : string)
    (net : HttpResult TokenVerificationResponse) (c : IAMClient) :
  let r := verifySession baseUrl sessionCookie net c in
  snd r
  = {| config := config c; token := token c; tokenCache := tokenCache c;
       log := log c ++ [Request "GET"
                          (replace_first "/api/v1" "" baseUrl +:+ "/api/v1/auth/me")
                          None] |}
  ∧ fst r
    = match net with
      | Resolved d => Resolves (enrichPermissionsFromRoles d)
      | Rejected e =>
          Rejects (ThrownError (handleError e "Session verification failed" false))
      end.
Proof.
  unfold verifySession, try_catch, bind, emit, throw, ret.
  by destruct net as [d|e].
Qed.

Lemma length_append (a b : string) :
  String.length (a +:+ b) = String.length a + String.length b.
Proof. induction a as [|ch a IH]; simpl; [done|]. by rewrite IH. Qed.

Lemma substring_0_append (h x : string) :
  String.substring 0 (String.length h) (h +:+ x) = h.
Proof. induction h as [|ch h IH]; simpl; [by destruct x|]. by rewrite IH. Qed.

Lemma substring_skip (h x : string) (n m : nat) :
  String.substring (String.length h + n) m (h +:+ x) = String.substring n m x.
Proof. induction h as [|ch h IH]; simpl; done. Qed.

Lemma substring_all (t : string) : String.substring 0 (String.length t) t = t.
Proof. induction t as [|ch t IH]; simpl; [done|]. by rewrite IH. Qed.

Lemma replace_first_at (pattern replacement h t : string) :
  String.index 0 pattern (h +:+ pattern +:+ t) = Some (String.length h) →
  replace_first pattern replacement (h +:+ pattern +:+ t) = h +:+ replacement +:+ t.
Proof.
  intros Hi. unfold replace_first. rewrite Hi.
  rewrite substring_0_append. do 2 f_equal.
  rewrite !length_append.
  replace (String.length h + (String.length pattern + String.length t)
           - (String.length h + String.length pattern))
    with (String.length t) by lia.
  rewrite substring_skip.
  rewrite <- (Nat.add_0_r (String.length pattern)), substring_skip.
  apply substring_all.
Qed.

Lemma append_assoc (a b c : string) : (a +:+ b) +:+ c = a +:+ (b +:+ c).
Proof.
  induction a as [|ch a IH]; [reflexivity|].
  change (String ch ((a +:+ b) +:+ c) = String ch (a +:+ (b +:+ c))).
  by rewrite IH.
Qed.

Lemma append_auth_me (host : string) :
  (host +:+ "" +:+ "") +:+ "/api/v1/auth/me" = (host +:+ "/api/v1") +:+ "/auth/me".
Proof. rewrite !append_assoc. reflexivity. Qed.

(** X18. The address [verifySession] asks: for a base URL without
    /api/v1 it is the base URL followed by /api/v1/auth/me; for a base URL
    whose first /api/v1 is at its end it is the base URL followed by
    /auth/me. *)
Theorem X18_verifySession_address (baseUrl sessionCookie : string)
    (net : HttpResult TokenVerificationResponse) (c : IAMClient) :
  (String.index 0 "/api/v1" baseUrl = None →
     log (snd (verifySession baseUrl sessionCookie net c))
     = log c ++ [Request "GET" (baseUrl +:+ "/api/v1/auth/me") None])
  ∧ (∀ host, baseUrl = host +:+ "/api/v1" →
       String.index 0 "/api/v1" baseUrl = Some (String.length host) →
       log (snd (verifySession baseUrl sessionCookie net c))
       = log c ++ [Request "GET" (baseUrl +:+ "/auth/me") None]).
Proof.
  assert (∀ url, replace_first "/api/v1" "" baseUrl = url →
            log (snd (verifySession baseUrl sessionCookie net c))
            = log c ++ [Request "GET" (url +:+ "/api/v1/auth/me") None]) as Hlog.
  { intros url <-. unfold verifySession, try_catch, bind, emit, throw, ret.
    by destruct net as [d|e]. }
  split.
  - intros Hi. apply Hlog. unfold replace_first. by rewrite Hi.
  - intros host -> Hi.
    rewrite (Hlog (host +:+ "" +:+ "")).
    + by rewrite append_auth_me.
    + pose proof (replace_first_at "/api/v1" "" host "") as Hr.
      change ("/api/v1" +:+ "") with "/api/v1" in Hr.
      by apply Hr.
Qed.

Lemma X18_verifySession_address_witness :
  log (snd (verifySession "http://localhost:8000/api/v1" "cookie"
              (Rejected Examples.offline) Examples.session))
  = [Request "GET" "http://localhost:8000/api/v1/auth/me" None]
  ∧ log (snd (verifySession "http://iam.example.com" "cookie"
                (Rejected Examples.offline) Examples.session))
    = [Request "GET" "http://iam.example.com/api/v1/auth/me" None].
Proof.
  split.
  - apply (proj2 (X18_verifySession_address "http://localhost:8000/api/v1" "cookie"
                    (Rejected Examples.offline) Examples.session)
             "http://localhost:8000"); reflexivity.
  - apply (proj1 (X18_verifySession_address "http://iam.example.com" "cookie"
                    (Rejected Examples.offline) Examples.session)); reflexivity.
Defined.

End MethodsFacts.

(** ** The context provider *)

Section ProviderFacts.
Import Errors Client Provider.

Lemma clearAuth_signedOut s c :
  clearAuth s c = (signedOut (p_isLoading s),
                   {| config := config c; token := None; tokenCache := ∅; log := log c |}).
Proof. reflexivity. Qed.

(** X19. When the provider's [login] rejects, the session that was there
    is gone: user, token and stored item are cleared, the client has no
    current token and an empty cache, loading is over, and the error is
    the one the client's [login] raised. *)
Theorem X19_provider_login_failure (credentials : LoginCredentials)
    (net : HttpResult LoginResponse) (s s' : ProviderState) (c c' : IAMClient)
    (e : Thrown) :
  Provider.login credentials net s c = (Rejects e, s', c') →
  s' = signedOut false
  ∧ getToken c' = None ∧ tokenCache c' = ∅
  ∧ fst (Client.login credentials net c) = Rejects e.
Proof.
  unfold Provider.login.
  destruct (Client.login credentials net c) as [[response|error] c1] eqn:Hl;
    [discriminate|].
  rewrite clearAuth_signedOut. simpl. intros H. by injection H as <- <- <-.
Qed.

Lemma X19_provider_login_failure_witness :
  snd (fst (Provider.login Examples.credentials (Rejected Examples.invalid)
              (mkProviderState (Some Examples.editor) (Some "T1") false (Some "T1"))
              Examples.session))
  = signedOut false.
Proof.
  apply (X19_provider_login_failure Examples.credentials (Rejected Examples.invalid)
           (mkProviderState (Some Examples.editor) (Some "T1") false (Some "T1")) _
           Examples.session
           (snd (Provider.login Examples.credentials (Rejected Examples.invalid)
                   (mkProviderState (Some Examples.editor) (Some "T1") false (Some "T1"))
                   Examples.session))
           (ThrownError (handleError Examples.invalid "Login failed" false))).
  reflexivity.
Defined.

(** X21. The provider's [logout] always resolves and always signs out:
    user, token and stored item are cleared, the client has no current
    token and an empty cache.  When the provider has no token it sends no
    request. *)
Theorem X21_provider_logout (net : HttpResult unit) (s : ProviderState) (c : IAMClient) :
  let r := Provider.logout net s c in
  fst (fst r) = Resolves tt
  ∧ snd (fst r) = signedOut (p_isLoading s)
  ∧ getToken (snd r) = None ∧ tokenCache (snd r) = ∅
  ∧ (truthy (p_token s) = false → log (snd r) = log c).
Proof.
  unfold Provider.logout.
  destruct (truthy (p_token s)) eqn:Ht.
  - destruct (Client.logout (p_token s) net c) as [[u|e] c1]; simpl; done.
  - simpl. done.
Qed.

Lemma X21_provider_logout_witness :
  log (snd (Provider.logout (Rejected Examples.offline)
              (mkProviderState None None false (Some "T1")) Examples.session))
  = log Examples.session.
Proof.
  apply (X21_provider_logout (Rejected Examples.offline)
           (mkProviderState None None false (Some "T1")) Examples.session).
  reflexivity.
Defined.

(** X22. [refreshUser] never rejects.  Without a token it does nothing.
    With a token whose verification is rejected it signs out.  With a
    token whose cached verification is still fresh it sends nothing and
    sets the user of the cached result. *)
Theorem X22_refreshUser (now1 now2 : Z) (net : HttpResult TokenVerificationResponse)
    (s : ProviderState) (c : IAMClient) :
  let r := refreshUser now1 net now2 s c in
  fst (fst r) = Resolves tt
  ∧ (truthy (p_token s) = false → snd (fst r) = s ∧ snd r = c)
  ∧ (∀ T e, p_token s = Some T → T ≠ "" →
       cacheFresh c (cacheKey T) now1 = None → net = Rejected e →
       snd (fst r) = signedOut (p_isLoading s)
       ∧ getToken (snd r) = None ∧ tokenCache (snd r) = ∅)
  ∧ (∀ T cached t0, p_token s = Some T → T ≠ "" →
       tokenCache c !! cacheKey T = Some (mkCacheEntry cached t0) →
       (now1 - t0 < 60000)%Z →
       snd (fst r) = setUser (tv_user cached) s ∧ snd r = c).
Proof.
  unfold refreshUser. split; [|split; [|split]].
  - destruct (truthy (p_token s)); simpl; [|done].
    by destruct (verifyToken (p_token s) now1 net now2 c) as [[response|e] c1].
  - by intros ->.
  - intros T e HT Hne Hmiss ->.
    assert (or_else (p_token s) (token c) = Some T) as Heff.
    { unfold or_else. by rewrite HT, truthy_Some. }
    destruct (verifyToken_miss_rejected c (p_token s) T now1 now2 e Heff Hne Hmiss)
      as (Hres & _ & _).
    rewrite HT, truthy_Some by done. simpl. rewrite <- HT.
    destruct (verifyToken (p_token s) now1 (Rejected e) now2 c) as [[response|e'] c1];
      simpl in *; [discriminate|done].
  - intros T cached t0 HT Hne Hc Hlt.
    assert (or_else (p_token s) (token c) = Some T) as Heff.
    { unfold or_else. by rewrite HT, truthy_Some. }
    rewrite HT, truthy_Some by done. simpl. rewrite <- HT.
    by rewrite (verifyToken_hit c (p_token s) T cached t0 now1 now2 net Heff Hne Hc Hlt).
Qed.

Lemma X22_refreshUser_witness :
  snd (fst (refreshUser 5000 (Rejected Examples.offline) 5001
              (mkProviderState None (Some "T1") false (Some "T1")) Examples.session))
  = mkProviderState (Some Examples.editor) (Some "T1") false (Some "T1")
  ∧ snd (fst (refreshUser 70000 (Rejected Examples.offline) 70001
                (mkProviderState (Some Examples.editor) (Some "T1") false (Some "T1"))
                Examples.session))
    = signedOut false
  ∧ snd (fst (refreshUser 70000 (Rejected Examples.offline) 70001
                (mkProviderState None (Some "") true None) Examples.session))
    = mkProviderState None (Some "") true None.
Proof.
  split; [|split].
  - apply (proj2 (proj2 (proj2 (X22_refreshUser 5000 5001 (Rejected Examples.offline)
                    (mkProviderState None (Some "T1") false (Some "T1"))
                    Examples.session)))
             "T1" Examples.stored 1000%Z);
      [reflexivity|discriminate|vm_compute; reflexivity|lia].
  - apply (proj1 (proj2 (proj2 (X22_refreshUser 70000 70001 (Rejected Examples.offline)
                    (mkProviderState (Some Examples.editor) (Some "T1") false (Some "T1"))
                    Examples.session)))
             "T1" Examples.offline);
      [reflexivity|discriminate|vm_compute; reflexivity|reflexivity].
  - apply (proj1 (proj2 (X22_refreshUser 70000 70001 (Rejected Examples.offline)
                    (mkProviderState None (Some "") true None) Examples.session))).
    reflexivity.
Defined.

(** X20. The effect run on mount.  With no stored item, or an empty one,
    nothing is sent and loading is over.  With a stored token whose
    verification is rejected, the stored item is removed and the session is
    signed out.  With a stored token whose verification resolves, the
    provider's token, the client's token and the stored item are that
    token and the user is the verified one. *)
Theorem X20_mount (now1 now2 : Z) (net : HttpResult TokenVerificationResponse)
    (s : ProviderState) (c : IAMClient) :
  let r := mount now1 net now2 s c in
  fst (fst r) = Resolves tt
  ∧ p_isLoading (snd (fst r)) = false
  ∧ (truthy (p_storage s) = false → snd (fst r) = setIsLoading false s ∧ snd r = c)
  ∧ (∀ T e, p_storage s = Some T → T ≠ "" →
       tokenCache c !! cacheKey T = None → net = Rejected e →
       snd (fst r) = signedOut false
       ∧ getToken (snd r) = None ∧ tokenCache (snd r) = ∅)
  ∧ (∀ T d, p_storage s = Some T → T ≠ "" →
       tokenCache c !! cacheKey T = None → net = Resolved d →
       snd (fst r)
       = {| p_user := tv_user d; p_token := Some T;
            p_isLoading := false; p_storage := Some T |}
       ∧ getToken (snd r) = Some T).
Proof.
  unfold mount.
  destruct (truthy (p_storage s)) eqn:Ht.
  2:{ split; [done|]. split; [done|]. split; [done|].
      split; intros T x HT Hne; rewrite HT, truthy_Some in Ht by done; discriminate. }
  destruct (p_storage s) as [T|] eqn:Hst; [|done]. simpl.
  assert (T ≠ "") as Hne.
  { intros ->. discriminate. }
  set (c0 := with_token (Some T) c).
  assert (or_else (Some T) (token c0) = Some T) as Heff.
  { unfold or_else. by rewrite truthy_Some. }
  unfold verifyAndLoadUser.
  split; [|split; [|split; [|split]]].
  - by destruct (verifyToken (Some T) now1 net now2 c0) as [[response|e] c1].
  - by destruct (verifyToken (Some T) now1 net now2 c0) as [[response|e] c1].
  - done.
  - intros T' e HT' _ Hc ->. injection HT' as <-.
    assert (cacheFresh c0 (cacheKey T) now1 = None) as Hmiss.
    { unfold cacheFresh. simpl. by rewrite Hc. }
    destruct (verifyToken_miss_rejected c0 (Some T) T now1 now2 e Heff Hne Hmiss)
      as (Hres & _ & _).
    destruct (verifyToken (Some T) now1 (Rejected e) now2 c0) as [[response|e'] c1];
      simpl in *; [discriminate|done].
  - intros T' d HT' _ Hc ->. injection HT' as <-.
    assert (cacheFresh c0 (cacheKey T) now1 = None) as Hmiss.
    { unfold cacheFresh. simpl. by rewrite Hc. }
    rewrite (verifyToken_miss_resolved c0 (Some T) T now1 now2 d Heff Hne Hmiss).
    simpl. unfold setIsLoading, setUser, setTokenState. simpl. by rewrite Hst.
Qed.

Lemma X20_mount_witness :
  snd (fst (mount 0 (Rejected Examples.offline) 1
              (mkProviderState None None true (Some ""))
              (mkIAMClient (mkIAMConfig false false) None ∅ [])))
  = mkProviderState None None false (Some "")
  ∧ snd (fst (mount 0 (Rejected Examples.offline) 1
                (mkProviderState None None true (Some "T1"))
                (mkIAMClient (mkIAMConfig false false) None ∅ [])))
    = signedOut false
  ∧ snd (fst (mount 0 (Resolved Examples.me) 1
                (mkProviderState None None true (Some "T1"))
                (mkIAMClient (mkIAMConfig false false) None ∅ [])))
    = mkProviderState (Some Examples.editor) (Some "T1") false (Some "T1").
Proof.
  split; [|split].
  - apply (proj1 (proj2 (proj2 (X20_mount 0 1 (Rejected Examples.offline)
                    (mkProviderState None None true (Some ""))
                    (mkIAMClient (mkIAMConfig false false) None ∅ []))))).
    reflexivity.
  - apply (proj1 (proj2 (proj2 (proj2 (X20_mount 0 1 (Rejected Examples.offline)
                    (mkProviderState None None true (Some "T1"))
                    (mkIAMClient (mkIAMConfig false false) None ∅ [])))))
             "T1" Examples.offline);
      [reflexivity|discriminate|reflexivity|reflexivity].
  - apply (proj2 (proj2 (proj2 (proj2 (X20_mount 0 1 (Resolved Examples.me)
                    (mkProviderState None None true (Some "T1"))
                    (mkIAMClient (mkIAMConfig false false) None ∅ [])))))
             "T1" Examples.me);
      [reflexivity|discriminate|reflexivity|reflexivity].
Defined.

Lemma signedOut_consistent b c :
  token c = None → consistent (signedOut b) c.
Proof. intros H. unfold consistent. simpl. rewrite H. by auto. Qed.

(** X23. The copies of the session stay in agreement.  Started from a
    provider and a client without token, the mount effect leaves them
    consistent: the provider's token is the client's current token, a
    user is present only with a token, and the stored item is that token
    (or absent or empty when there is none).  [login] and [logout] leave
    them consistent whatever the state before and whatever the transport
    answers, and [refreshUser] keeps them consistent. *)
Theorem X23_provider_consistency (s : ProviderState) (c : IAMClient) :
  (∀ now1 net now2,
      p_user s = None → p_token s = None → token c = None →
      consistent (snd (fst (mount now1 net now2 s c))) (snd (mount now1 net now2 s c)))
  ∧ (∀ credentials net,
      consistent (snd (fst (Provider.login credentials net s c)))
                 (snd (Provider.login credentials net s c)))
  ∧ (∀ net,
      consistent (snd (fst (Provider.logout net s c))) (snd (Provider.logout net s c)))
  ∧ (∀ now1 net now2,
      consistent s c →
      consistent (snd (fst (refreshUser now1 net now2 s c)))
                 (snd (refreshUser now1 net now2 s c))).
Proof.
  split; [|split; [|split]].
  - intros now1 net now2 Hu Ht Hc. unfold mount.
    destruct (truthy (p_storage s)) eqn:Htr.
    + destruct (p_storage s) as [T|] eqn:Hst; [|done]. simpl.
      unfold verifyAndLoadUser.
      pose proof (verifyToken_shape (with_token (Some T) c) (Some T) now1 net now2)
        as (Htok & _ & _).
      destruct (verifyToken (Some T) now1 net now2 (with_token (Some T) c))
        as [[response|e] c1]; simpl in *.
      * unfold consistent. simpl. rewrite Htok, Hst. by auto.
      * by apply signedOut_consistent.
    + unfold consistent. simpl. rewrite Hu, Ht, Hc. by auto.
  - intros credentials net. unfold Provider.login.
    destruct (Client.login credentials net c) as [[response|e] c1] eqn:Hl.
    + unfold consistent. simpl.
      assert (token c1 = Some (lr_access_token response)) as ->.
      { destruct net as [d|err].
        - unfold Client.login, try_catch, bind, http in Hl. simpl in Hl.
          by injection Hl as <- <-.
        - unfold Client.login, try_catch, bind, http, throw in Hl. simpl in Hl.
          destruct (is_401 err && onAuthError (config c)); discriminate. }
      by auto.
    + rewrite clearAuth_signedOut. simpl. by apply signedOut_consistent.
  - intros net. unfold Provider.logout.
    destruct (truthy (p_token s)).
    + destruct (Client.logout (p_token s) net c) as [[u|e] c1]; simpl;
        by apply signedOut_consistent.
    + simpl. by apply signedOut_consistent.
  - intros now1 net now2 (Htok & Hu & Hst). unfold refreshUser.
    destruct (truthy (p_token s)) eqn:Htr; simpl; [|done].
    pose proof (verifyToken_shape c (p_token s) now1 net now2) as (Htok' & _ & _).
    destruct (verifyToken (p_token s) now1 net now2 c) as [[response|e] c1]; simpl in *.
    + unfold consistent. simpl. rewrite Htok'. split; [done|]. split; [|done].
      intros _. by destruct (p_token s).
    + by apply signedOut_consistent.
Qed.

Lemma X23_provider_consistency_witness :
  consistent
    (snd (fst (mount 0 (Resolved Examples.me) 1
                 (mkProviderState None None true (Some "T1"))
                 (mkIAMClient (mkIAMConfig false false) None ∅ []))))
    (snd (mount 0 (Resolved Examples.me) 1
            (mkProviderState None None true (Some "T1"))
            (mkIAMClient (mkIAMConfig false false) None ∅ []))).
Proof.
  apply (proj1 (X23_provider_consistency (mkProviderState None None true (Some "T1"))
                  (mkIAMClient (mkIAMConfig false false) None ∅ []))); reflexivity.
Defined.

End ProviderFacts.

(** ** The hooks and the guard *)

Section HooksFacts.
Import Errors Client Methods Guard Hooks.

Lemma provider_check_true ctx (check : option string → HttpResult bool → Async bool)
    label path net c c' :
  (∀ tok n, check tok n
     = try_catch (let* b := http "POST" path (bearer tok) n in ret b)
                 (fun _ => let* _ := emit (ConsoleError label) in ret false)) →
  (if negb (truthy (ctx_token ctx)) then ret false else check (ctx_token ctx) net) c
  = (Resolves true, c') →
  truthy (ctx_token ctx) = true ∧ net = Resolved true.
Proof.
  intros Hcheck. destruct (truthy (ctx_token ctx)); simpl; [|discriminate].
  rewrite Hcheck. unfold try_catch, bind, http, ret. destruct net as [b|e]; simpl.
  - intros H. injection H as -> _. done.
  - destruct (is_401 e && onAuthError (config c)); discriminate.
Qed.

Lemma provider_check_resolves ctx (check : option string → HttpResult bool → Async bool)
    label path net c :
  (∀ tok n, check tok n
     = try_catch (let* b := http "POST" path (bearer tok) n in ret b)
                 (fun _ => let* _ := emit (ConsoleError label) in ret false)) →
  ∃ b c',
    (if negb (truthy (ctx_token ctx)) then ret false else check (ctx_token ctx) net) c
    = (Resolves b, c').
Proof.
  intros Hcheck. destruct (truthy (ctx_token ctx)); simpl; [|by eexists _, _].
  rewrite Hcheck. unfold try_catch, bind, http, ret. destruct net as [b|e]; simpl.
  - by eexists _, _.
  - destruct (is_401 e && onAuthError (config c)); by eexists _, _.
Qed.

(** X24. [usePermission] and [useRole] start from [false] and become
    [true] only when the component is still mounted, the provider has a
    token and the check request resolved with [true]; a rejected request,
    a missing token or an unmounted component never turn them on.  They
    never reject. *)
Theorem X24_permission_hooks (ctx : IAMContextValue) (name : string)
    (net : HttpResult bool) (mounted : bool) (c : IAMClient) :
  (∀ c', usePermission ctx name net mounted false c = (Resolves true, c') →
         mounted = true ∧ truthy (ctx_token ctx) = true ∧ net = Resolved true)
  ∧ (∀ c', useRole ctx name net mounted false c = (Resolves true, c') →
           mounted = true ∧ truthy (ctx_token ctx) = true ∧ net = Resolved true)
  ∧ (∀ before, ∃ after,
       fst (usePermission ctx name net mounted before c) = Resolves after)
  ∧ (∀ before, ∃ after,
       fst (useRole ctx name net mounted before c) = Resolves after).
Proof.
  split; [|split; [|split]].
  - intros c'. unfold usePermission, bind.
    destruct (hasPermission ctx name net c) as [[b|e] c1] eqn:Hp; [|discriminate].
    unfold ret. intros H. injection H as Hb <-.
    destruct mounted; [|discriminate]. subst b. split; [done|].
    by apply (provider_check_true ctx (Client.hasPermission name)
                "Permission check failed:" "/auth/check-permission" net c c1).
  - intros c'. unfold useRole, bind.
    destruct (hasRole ctx name net c) as [[b|e] c1] eqn:Hp; [|discriminate].
    unfold ret. intros H. injection H as Hb <-.
    destruct mounted; [|discriminate]. subst b. split; [done|].
    by apply (provider_check_true ctx (Client.hasRole name)
                "Role check failed:" "/auth/check-role" net c c1).
  - intros before. unfold usePermission, bind.
    destruct (provider_check_resolves ctx (Client.hasPermission name)
                "Permission check failed:" "/auth/check-permission" net c
                ltac:(done)) as (b & c1 & Hb).
    unfold hasPermission. rewrite Hb. by eexists.
  - intros before. unfold useRole, bind.
    destruct (provider_check_resolves ctx (Client.hasRole name)
                "Role check failed:" "/auth/check-role" net c
                ltac:(done)) as (b & c1 & Hb).
    unfold hasRole. rewrite Hb. by eexists.
Qed.

Lemma X24_permission_hooks_witness :
  usePermission (mkIAMContextValue (Some Examples.editor) (Some "T1") false)
    "forms.create" (Resolved true) true false Examples.session
  = (Resolves true,
     snd (usePermission (mkIAMContextValue (Some Examples.editor) (Some "T1") false)
            "forms.create" (Resolved true) true false Examples.session))
  ∧ (true = true ∧ truthy (Some "T1") = true
     ∧ @Resolved bool true = Resolved true).
Proof.
  split; [reflexivity|].
  apply (proj1 (X24_permission_hooks
                  (mkIAMContextValue (Some Examples.editor) (Some "T1") false)
                  "forms.create" (Resolved true) true Examples.session)
           (snd (usePermission (mkIAMContextValue (Some Examples.editor) (Some "T1") false)
                   "forms.create" (Resolved true) true false Examples.session))).
  reflexivity.
Defined.



(** X26. The guard renders its children exactly when loading is over and
    the access state is [true]; while loading, or before [checkAccess] has
    set the state, it renders the fallback. *)
Theorem X26_children_iff (ctx : IAMContextValue) (hasAccess : option bool)
    (window : bool) (redirectTo : option string) :
  (render ctx hasAccess window redirectTo = Children
   ↔ isLoading ctx = false ∧ hasAccess = Some true)
  ∧ (render ctx hasAccess window redirectTo = Fallback
     ↔ isLoading ctx = true ∨ hasAccess = None).
Proof.
  unfold render.
  destruct (isLoading ctx); destruct hasAccess as [[|]|]; simpl;
    intuition congruence.
Qed.

Lemma X26_children_iff_witness :
  render (mkIAMContextValue (Some Examples.editor) (Some "T1") false) (Some true)
    true (Some "/login") = Children
  ∧ render (mkIAMContextValue (Some Examples.editor) (Some "T1") true) (Some true)
      true (Some "/login") = Fallback.
Proof.
  split.
  - apply (proj1 (X26_children_iff
                    (mkIAMContextValue (Some Examples.editor) (Some "T1") false)
                    (Some true) true (Some "/login"))).
    split; reflexivity.
  - apply (proj2 (X26_children_iff
                    (mkIAMContextValue (Some Examples.editor) (Some "T1") true)
                    (Some true) true (Some "/login"))).
    left. reflexivity.
Defined.

(** X27. [checkAccess] never rejects, and it yields [true] only for an
    authenticated user for whom, when a permission is required, the
    provider has a token and the permission check resolved with [true],
    and, when no permission but a role is required, the provider has a
    token and the role check resolved with [true]. *)
Theorem X27_guard_sound (ctx : IAMContextValue)
    (requiredPermission requiredRole : option string)
    (netP netR : HttpResult bool) (c : IAMClient) :
  (∃ access, fst (checkAccess ctx requiredPermission requiredRole netP netR c)
             = Resolves access)
  ∧ (∀ c', checkAccess ctx requiredPermission requiredRole netP netR c
           = (Resolves true, c') →
       isAuthenticated ctx = true
       ∧ (truthy requiredPermission = true →
            truthy (ctx_token ctx) = true ∧ netP = Resolved true)
       ∧ (truthy requiredPermission = false → truthy requiredRole = true →
            truthy (ctx_token ctx) = true ∧ netR = Resolved true)).
Proof.
  unfold checkAccess.
  destruct (isAuthenticated ctx); simpl;
    [|split; [by eexists|intros c' H; discriminate]].
  destruct (truthy requiredPermission) eqn:Hp.
  - rewrite bind_ret. split.
    + destruct (provider_check_resolves ctx
                  (Client.hasPermission (default "" requiredPermission))
                  "Permission check failed:" "/auth/check-permission" netP c
                  ltac:(done)) as (b & c1 & Hb).
      exists b. unfold hasPermission. by rewrite Hb.
    + intros c' H. split; [done|]. split; [|done]. intros _.
      by apply (provider_check_true ctx
                  (Client.hasPermission (default "" requiredPermission))
                  "Permission check failed:" "/auth/check-permission" netP c c').
  - destruct (truthy requiredRole) eqn:Hr.
    + rewrite bind_ret. split.
      * destruct (provider_check_resolves ctx
                    (Client.hasRole (default "" requiredRole))
                    "Role check failed:" "/auth/check-role" netR c
                    ltac:(done)) as (b & c1 & Hb).
        exists b. unfold hasRole. by rewrite Hb.
      * intros c' H. split; [done|]. split; [done|]. intros _ _.
        by apply (provider_check_true ctx
                    (Client.hasRole (default "" requiredRole))
                    "Role check failed:" "/auth/check-role" netR c c').
    + split; [by eexists|]. intros c' H. done.
Qed.

Lemma X27_guard_sound_witness :
  isAuthenticated (mkIAMContextValue (Some Examples.editor) (Some "T1") false) = true
  ∧ (truthy (Some "forms.create") = true →
       truthy (Some "T1") = true ∧ @Resolved bool true = Resolved true)
  ∧ (truthy (Some "forms.create") = false → truthy (Some "admin") = true →
       truthy (Some "T1") = true ∧ @Resolved bool false = Resolved true).
Proof.
  apply (proj2 (X27_guard_sound
                  (mkIAMContextValue (Some Examples.editor) (Some "T1") false)
                  (Some "forms.create") (Some "admin") (Resolved true) (Resolved false)
                  Examples.session)
           (snd (checkAccess (mkIAMContextValue (Some Examples.editor) (Some "T1") false)
                   (Some "forms.create") (Some "admin") (Resolved true) (Resolved false)
                   Examples.session))).
  reflexivity.
Defined.

(** X28. When a permission is required, the required role plays no part:
    [checkAccess] gives the same outcome and the same client whatever
    [requiredRole] is and whatever a role check would answer. *)
Theorem X28_role_ignored_with_permission (ctx : IAMContextValue)
    (requiredPermission requiredRole requiredRole' : option string)
    (netP netR netR' : HttpResult bool) (c : IAMClient) :
  truthy requiredPermission = true →
  checkAccess ctx requiredPermission requiredRole netP netR c
  = checkAccess ctx requiredPermission requiredRole' netP netR' c.
Proof.
  intros Hp. unfold checkAccess. rewrite Hp.
  by destruct (isAuthenticated ctx).
Qed.

Lemma X28_role_ignored_with_permission_witness :
  checkAccess (mkIAMContextValue (Some Examples.editor) (Some "T1") false)
    (Some "forms.create") (Some "admin") (Resolved true) (Resolved false) Examples.session
  = checkAccess (mkIAMContextValue (Some Examples.editor) (Some "T1") false)
      (Some "forms.create") None (Resolved true) (Resolved true) Examples.session.
Proof. apply X28_role_ignored_with_permission. reflexivity. Defined.

End HooksFacts.
